(** * BioProv: the provenance document assembler

    Shallow embedding of [bioprov/src/prov.py] (class [BioProvDocument]) and
    proofs about the document it assembles from a [Project].

    Layout:
    - [PyVal], [Exception], [Result]: Python values and exceptions;
    - module [prov]: the part of the third-party [prov.model] API that the
      assembler calls, as a store of namespaces, records and bundles;
    - modules [Run], [Program], [File], [Sample], [Environment], [Project]:
      the domain classes read (and annotated) by the assembler;
    - [BioProvDocument] and its methods, one definition per method;
    - closed forms of the loops, then the properties. *)

From Stdlib Require Import ZArith String List Lia.
From stdpp Require Import base list strings gmap pretty.

Local Open Scope string_scope.
Local Open Scope list_scope.

(** ** Python values and exceptions *)

(** A registered namespace: [prov.model.Namespace(prefix, uri)]. *)
Record Namespace := { prefix : string; uri : string }.

(** Values found in the [__dict__] of a domain object. *)
Inductive PyVal :=
| VStr (s : string)
| VInt (z : Z)
| VBool (b : bool)
| VSeq (items : list string)
| VMap (keys : list string)
| VNamespace (ns : Namespace)
| VQName (identifier : string).

(** The exceptions the assembler can raise: the entry [assert] and the
    dictionary lookup [program.runs[...]]. *)
Inductive Exception :=
| AssertionError (msg : string)
| KeyError (key : string).

Definition Result : Type → Type := sum Exception.

Definition raise {A} (e : Exception) : Result A := inl e.

#[global] Instance Result_ret : MRet Result := λ A a, inr a.
#[global] Instance Result_bind : MBind Result := λ A B k m,
  match m with
  | inl e => inl e
  | inr a => k a
  end.

(** Time stamps ([start_time], [end_time] of a run). *)
Definition Time := Z.

(** ** The [prov.model] document store

    [prov.model] is a third-party library.  The model keeps what the
    assembler hands to it: the namespaces in the order they are requested
    (what a bundle then holds is [registered_namespaces], further down),
    the records in the order they are created, each under the identifier
    text it was created with, and the bundles in the order they are opened.
    A bundle is shared between the document and the sample that holds it, so
    a sample refers to its bundle by a handle (its position in the
    document) and every call on the bundle goes through the document.
    The checks the library makes on its arguments are outside the model:
    a call always returns. *)

Inductive RelationKind := Derivation | Generation | Association | Attribution.

Inductive ProvRecord :=
| ProvEntity (identifier : string) (other_attributes : list (string * PyVal))
| ProvActivity (identifier : string) (startTime endTime : Time)
| ProvAgent (identifier : string)
| ProvRelation (kind : RelationKind) (source target : string).

Module prov.

Record ProvBundle := {
  identifier : option string;
  default_namespace : option string;
  namespaces : list Namespace;
  records : list ProvRecord
}.

(** [ProvDocument] extends [ProvBundle] with the bundles it owns. *)
Record ProvDocument := {
  top : ProvBundle;
  bundles : list ProvBundle
}.

Definition new_bundle (identifier : option string) : ProvBundle :=
  {| identifier := identifier; default_namespace := None;
     namespaces := []; records := [] |}.

(** [ProvDocument()] *)
Definition new_document : ProvDocument :=
  {| top := new_bundle None; bundles := [] |}.

(** [record.identifier]; a relation has none of its own. *)
Definition record_identifier (r : ProvRecord) : option string :=
  match r with
  | ProvEntity i _ | ProvActivity i _ _ | ProvAgent i => Some i
  | ProvRelation _ _ _ => None
  end.

Definition qname (r : ProvRecord) : string :=
  default "" (record_identifier r).

Definition add_record (r : ProvRecord) (b : ProvBundle) : ProvBundle :=
  {| identifier := identifier b; default_namespace := default_namespace b;
     namespaces := namespaces b; records := records b ++ [r] |}.

(** [bundle.add_namespace(prefix, uri)] returns the namespace. *)
Definition add_namespace (prefix uri : string) (b : ProvBundle)
  : Namespace * ProvBundle :=
  let ns := {| prefix := prefix; uri := uri |} in
  (ns, {| identifier := identifier b;
          default_namespace := default_namespace b;
          namespaces := namespaces b ++ [ns]; records := records b |}).

(** [bundle.set_default_namespace(uri)] *)
Definition set_default_namespace (uri : string) (b : ProvBundle)
  : unit * ProvBundle :=
  (tt, {| identifier := identifier b; default_namespace := Some uri;
          namespaces := namespaces b; records := records b |}).

(** [bundle.entity(identifier, other_attributes=...)] returns the record. *)
Definition entity (identifier : string)
    (other_attributes : list (string * PyVal)) (b : ProvBundle)
  : ProvRecord * ProvBundle :=
  let r := ProvEntity identifier other_attributes in (r, add_record r b).

(** [bundle.activity(identifier, startTime=..., endTime=...)] *)
Definition activity (identifier : string) (startTime endTime : Time)
    (b : ProvBundle) : ProvRecord * ProvBundle :=
  let r := ProvActivity identifier startTime endTime in (r, add_record r b).

(** [bundle.agent(identifier)] *)
Definition agent (identifier : string) (b : ProvBundle)
  : ProvRecord * ProvBundle :=
  let r := ProvAgent identifier in (r, add_record r b).

(** [bundle.wasDerivedFrom(generatedEntity, usedEntity)] *)
Definition wasDerivedFrom (generatedEntity usedEntity : ProvRecord)
    (b : ProvBundle) : ProvRecord * ProvBundle :=
  let r := ProvRelation Derivation (qname generatedEntity) (qname usedEntity)
  in (r, add_record r b).

(** A call on the document itself. *)
Definition on_document {A} (m : ProvBundle → A * ProvBundle)
    (doc : ProvDocument) : A * ProvDocument :=
  let '(a, t) := m (top doc) in (a, {| top := t; bundles := bundles doc |}).

(** [document.bundle(identifier)] opens a bundle and returns its handle. *)
Definition bundle (identifier : string) (doc : ProvDocument)
  : nat * ProvDocument :=
  (length (bundles doc),
   {| top := top doc;
      bundles := bundles doc ++ [new_bundle (Some identifier)] |}).

(** A call on the bundle behind handle [h].  Handles come from [bundle]
    and bundles are never removed, so the lookup finds the bundle. *)
Definition on_bundle {A} (h : nat) (m : ProvBundle → A * ProvBundle)
    (doc : ProvDocument) : A * ProvDocument :=
  let '(a, b) := m (default (new_bundle None) (bundles doc !! h)) in
  (a, {| top := top doc; bundles := <[h := b]> (bundles doc) |}).

(** The prefixes of [namespaces], in the order of the calls. *)
Definition prefixes (b : ProvBundle) : list string :=
  prefix <$> namespaces b.

End prov.

(** ** Domain classes

    The classes live in [bioprov.src.main], [bioprov.src.files] and
    [bioprov.src.config].  Each record has the attributes the assembler
    reads, the text [str()] gives for the object, and the attributes the
    assembler assigns ([None] until then). *)

Module Run.
(** Modelled from the spec: [bioprov.src.main.Run], with start time, end
    time, exit status and user identifier. *)
Record t := {
  start_time : Time;
  end_time : Time;
  status : Z;
  user : string
}.
End Run.

Module Program.
(** Modelled from the spec: [bioprov.src.main.Program], a name and a map
    from run index (stringified integer) to [Run]. *)
Record t := {
  name : string;
  runs : gmap string Run.t;
  __str__ : string;
  namespace : option Namespace;
  ProvActivity : option ProvRecord
}.

Definition set_namespace (v : option Namespace) (p : t) : t :=
  {| name := name p; runs := runs p; __str__ := __str__ p;
     namespace := v; ProvActivity := ProvActivity p |}.

Definition set_ProvActivity (v : option ProvRecord) (p : t) : t :=
  {| name := name p; runs := runs p; __str__ := __str__ p;
     namespace := namespace p; ProvActivity := v |}.
End Program.

Module File.
(** Modelled from the spec: [bioprov.src.files.File], with name, path,
    existence flag and a metadata mapping. *)
Record t := {
  name : string;
  path : string;
  exists_ : bool;
  metadata : list (string * PyVal);
  namespace : option Namespace;
  ProvEntity : option ProvRecord
}.

Definition set_namespace (v : option Namespace) (f : t) : t :=
  {| name := name f; path := path f; exists_ := exists_ f;
     metadata := metadata f; namespace := v; ProvEntity := ProvEntity f |}.

Definition set_ProvEntity (v : option ProvRecord) (f : t) : t :=
  {| name := name f; path := path f; exists_ := exists_ f;
     metadata := metadata f; namespace := namespace f; ProvEntity := v |}.

(** Modelled from the spec: [file.__dict__], the instance attributes in
    assignment order. *)
Definition __dict__ (f : t) : list (string * PyVal) :=
  [("name", VStr (name f)); ("path", VStr (path f));
   ("exists", VBool (exists_ f))]
  ++ metadata f
  ++ match namespace f with
     | Some ns => [("namespace", VNamespace ns)]
     | None => []
     end
  ++ match ProvEntity f with
     | Some r => [("ProvEntity", VQName (prov.qname r))]
     | None => []
     end.
End File.

Module Sample.
(** Modelled from the spec: [bioprov.src.main.Sample], a name, a map of
    files and a map of programs (maps keep insertion order). *)
Record t := {
  name : string;
  files : list (string * File.t);
  programs : list (string * Program.t);
  ProvBundle : option nat;
  ProvEntity : option ProvRecord
}.

Definition set_files (v : list (string * File.t)) (s : t) : t :=
  {| name := name s; files := v; programs := programs s;
     ProvBundle := ProvBundle s; ProvEntity := ProvEntity s |}.

Definition set_programs (v : list (string * Program.t)) (s : t) : t :=
  {| name := name s; files := files s; programs := v;
     ProvBundle := ProvBundle s; ProvEntity := ProvEntity s |}.

Definition set_ProvBundle (v : option nat) (s : t) : t :=
  {| name := name s; files := files s; programs := programs s;
     ProvBundle := v; ProvEntity := ProvEntity s |}.

Definition set_ProvEntity (v : option ProvRecord) (s : t) : t :=
  {| name := name s; files := files s; programs := programs s;
     ProvBundle := ProvBundle s; ProvEntity := v |}.
End Sample.

Module Environment.
(** Modelled from the spec: [bioprov.src.config.EnvProv], a snapshot of
    environment variables with its own namespace. *)
Record t := {
  __str__ : string;
  env_dict : list (string * PyVal);
  env_namespace : Namespace
}.
End Environment.

Module Project.
(** Modelled from the spec: [bioprov.src.main.Project], a tag, the map of
    samples and the map from user to environment. *)
Record t := {
  tag : string;
  files : list (string * File.t);
  _samples : list (string * Sample.t);
  envs : list (string * Environment.t);
  __str__ : string;
  namespace : option Namespace;
  entity : option ProvRecord
}.

Definition set_namespace (v : option Namespace) (p : t) : t :=
  {| tag := tag p; files := files p; _samples := _samples p;
     envs := envs p; __str__ := __str__ p;
     namespace := v; entity := entity p |}.

Definition set_entity (v : option ProvRecord) (p : t) : t :=
  {| tag := tag p; files := files p; _samples := _samples p;
     envs := envs p; __str__ := __str__ p;
     namespace := namespace p; entity := v |}.

Definition set_samples (v : list (string * Sample.t)) (p : t) : t :=
  {| tag := tag p; files := files p; _samples := v;
     envs := envs p; __str__ := __str__ p;
     namespace := namespace p; entity := entity p |}.

(** Modelled from the spec: [project.items()] iterates over the sample
    map. *)
Definition items (p : t) : list (string * Sample.t) := _samples p.

(** Modelled from the spec: [project.__dict__], the instance attributes in
    assignment order. *)
Definition __dict__ (p : t) : list (string * PyVal) :=
  [("tag", VStr (tag p)); ("files", VMap (fst <$> files p));
   ("_samples", VMap (fst <$> _samples p));
   ("envs", VMap (fst <$> envs p))]
  ++ match namespace p with
     | Some ns => [("namespace", VNamespace ns)]
     | None => []
     end
  ++ match entity p with
     | Some r => [("entity", VQName (prov.qname r))]
     | None => []
     end.
End Project.

(** What the caller passes to the constructor: a [Project] or anything
    else. *)
Inductive PyObject :=
| ObjProject (p : Project.t)
| ObjOther (repr : string).

(** ** [bioprov.utils] *)

(** Modelled from the spec: the encoder flattens a sequence or mapping
    value to text and keeps any other value. *)
Definition flatten (v : PyVal) : PyVal :=
  match v with
  | VSeq items => VStr (String.concat ", " items)
  | VMap keys => VStr (String.concat ", " keys)
  | _ => v
  end.

(** Modelled from the spec: [bioprov.utils.build_prov_attributes], the
    attribute encoder.  Every key is qualified with the prefix of the
    namespace, in input order, and every value is flattened.  Every caller
    passes a namespace, so the encoder's failure on a missing namespace
    does not arise. *)
Definition build_prov_attributes (dictionary : list (string * PyVal))
    (namespace : Namespace) : list (string * PyVal) :=
  (λ kv, (prefix namespace +:+ ":" +:+ kv.1, flatten kv.2)) <$> dictionary.

(** ** Python control flow *)

(** [d[key]]: the value, or [KeyError(key)]. *)
Definition getitem {V} (d : gmap string V) (key : string) : Result V :=
  match d !! key with
  | Some v => mret v
  | None => raise (KeyError key)
  end.

(** [for key, x in d.items(): body], where the body changes the state and
    the object [x] in place. *)
Fixpoint for_items {S X} (body : S → X → S * X) (s : S)
    (items : list (string * X)) : S * list (string * X) :=
  match items with
  | [] => (s, [])
  | (key, x) :: rest =>
      let '(s, x) := body s x in
      let '(s, rest) := for_items body s rest in
      (s, (key, x) :: rest)
  end.

(** The same loop with a body that can raise. *)
Fixpoint for_items_raising {S X} (body : S → X → Result (S * X)) (s : S)
    (items : list (string * X)) : Result (S * list (string * X)) :=
  match items with
  | [] => mret (s, [])
  | (key, x) :: rest =>
      '(s, x) ← body s x;
      '(s, rest) ← for_items_raising body s rest;
      mret (s, (key, x) :: rest)
  end.

(** ** [class BioProvDocument] *)

Record BioProvDocument := {
  ProvDocument : prov.ProvDocument;
  project : Project.t;
  samples_entity : option ProvRecord;
  activities : option (list (string * ProvRecord));
  add_attributes : bool
}.

Definition set_ProvDocument (doc : prov.ProvDocument) (self : BioProvDocument)
  : BioProvDocument :=
  {| ProvDocument := doc; project := project self;
     samples_entity := samples_entity self; activities := activities self;
     add_attributes := add_attributes self |}.

Definition set_project (p : Project.t) (self : BioProvDocument)
  : BioProvDocument :=
  {| ProvDocument := ProvDocument self; project := p;
     samples_entity := samples_entity self; activities := activities self;
     add_attributes := add_attributes self |}.

(** [_add_project_namespace] *)
Definition _add_project_namespace (self : BioProvDocument) : BioProvDocument :=
  let '(ns, doc) :=
    prov.on_document
      (prov.add_namespace "project" (Project.__str__ (project self)))
      (ProvDocument self) in
  let p := Project.set_namespace (Some ns) (project self) in
  if add_attributes self then
    let '(e, doc) :=
      prov.on_document
        (prov.entity ("project:" +:+ Project.__str__ p)
           (build_prov_attributes
              (filter (λ kv, kv.1 ∉ ["_samples"; "files"]) (Project.__dict__ p))
              ns))
        doc in
    set_project (Project.set_entity (Some e) p) (set_ProvDocument doc self)
  else
    let '(e, doc) :=
      prov.on_document (prov.entity ("project:" +:+ Project.__str__ p) [])
        doc in
    set_project (Project.set_entity (Some e) p) (set_ProvDocument doc self).

(** [_add_samples_namespace] *)
Definition _add_samples_namespace (self : BioProvDocument) : BioProvDocument :=
  let '(_, doc) :=
    prov.on_document
      (prov.add_namespace "samples"
         ("Samples associated with bioprov Project '"
            +:+ Project.tag (project self) +:+ "'"))
      (ProvDocument self) in
  set_ProvDocument doc self.

(** [_add_activities_namespace] *)
Definition _add_activities_namespace (self : BioProvDocument)
  : BioProvDocument :=
  if Nat.eqb (length (prov.namespaces (prov.top (ProvDocument self)))) 0 then
    let '(_, doc) :=
      prov.on_document
        (prov.add_namespace "activities"
           ("Activities associated with bioprov Project '"
              +:+ Project.tag (project self) +:+ "'"))
        (ProvDocument self) in
    set_ProvDocument doc self
  else self.

(** Body of the loop of [_add_env_and_user_namespace]. *)
Definition add_env_and_user (add_attributes : bool) (doc : prov.ProvDocument)
    (item : string * Environment.t) : prov.ProvDocument :=
  let '(_user, _env) := item in
  let '(_, doc) :=
    if add_attributes then
      prov.on_document
        (prov.entity ("envs:" +:+ Environment.__str__ _env)
           (build_prov_attributes (Environment.env_dict _env)
              (Environment.env_namespace _env)))
        doc
    else
      prov.on_document (prov.entity ("envs:" +:+ Environment.__str__ _env) [])
        doc in
  let '(_, doc) := prov.on_document (prov.agent ("users:" +:+ _user)) doc in
  doc.

(** [_add_env_and_user_namespace] *)
Definition _add_env_and_user_namespace (self : BioProvDocument)
  : BioProvDocument :=
  let '(_, doc) :=
    prov.on_document
      (prov.add_namespace "envs"
         ("Environments associated with BioProv Project '"
            +:+ Project.tag (project self) +:+ "'"))
      (ProvDocument self) in
  let '(_, doc) :=
    prov.on_document
      (prov.add_namespace "users"
         ("Users associated with BioProv Project '"
            +:+ Project.tag (project self) +:+ "'"))
      doc in
  set_ProvDocument
    (foldl (add_env_and_user (add_attributes self)) doc
       (Project.envs (project self)))
    self.

(** Body of the loop over [sample.files.items()] in [_iter_samples]; [h] is
    [sample.ProvBundle]. *)
Definition iter_file (h : nat) (files_namespace_prefix : string)
    (sample_ProvEntity : ProvRecord) (doc : prov.ProvDocument) (file : File.t)
  : prov.ProvDocument * File.t :=
  let '(ns, doc) :=
    prov.on_bundle h (prov.add_namespace (File.name file) (File.path file))
      doc in
  let file := File.set_namespace (Some ns) file in
  let '(e, doc) :=
    prov.on_bundle h
      (prov.entity (files_namespace_prefix +:+ ":" +:+ File.name file)
         (build_prov_attributes (File.__dict__ file) ns))
      doc in
  let file := File.set_ProvEntity (Some e) file in
  let '(_, doc) :=
    prov.on_bundle h (prov.wasDerivedFrom e sample_ProvEntity) doc in
  (doc, file).

(** Body of the loop over [sample.programs.items()] in [_iter_samples]. *)
Definition iter_program (h : nat) (programs_namespace_prefix : string)
    (doc : prov.ProvDocument) (program : Program.t)
  : Result (prov.ProvDocument * Program.t) :=
  let '(ns, doc) :=
    prov.on_bundle h
      (prov.add_namespace (Program.name program) (Program.__str__ program))
      doc in
  let program := Program.set_namespace (Some ns) program in
  last_run ← getitem (Program.runs program)
                (pretty (size (Program.runs program)));
  let '(a, doc) :=
    prov.on_bundle h
      (prov.activity
         (programs_namespace_prefix +:+ ":" +:+ Program.name program)
         (Run.start_time last_run) (Run.end_time last_run))
      doc in
  let program := Program.set_ProvActivity (Some a) program in
  mret (doc, program).

(** Body of the loop over [self.project.items()] in [_iter_samples]. *)
Definition iter_sample (doc : prov.ProvDocument) (sample : Sample.t)
  : Result (prov.ProvDocument * Sample.t) :=
  let '(h, doc) := prov.bundle ("samples:" +:+ Sample.name sample) doc in
  let sample := Sample.set_ProvBundle (Some h) sample in
  let '(_, doc) :=
    prov.on_bundle h (prov.set_default_namespace (Sample.name sample)) doc in
  let '(e, doc) := prov.on_bundle h (prov.entity (Sample.name sample) []) doc in
  let sample := Sample.set_ProvEntity (Some e) sample in
  let files_namespace_prefix := Sample.name sample +:+ ".files" in
  let '(_, doc) :=
    prov.on_bundle h
      (prov.add_namespace files_namespace_prefix
         ("Files associated with Sample " +:+ Sample.name sample))
      doc in
  let '(doc, files) :=
    for_items (iter_file h files_namespace_prefix e) doc
      (Sample.files sample) in
  let sample := Sample.set_files files sample in
  let programs_namespace_prefix := Sample.name sample +:+ ".programs" in
  '(doc, programs) ←
    for_items_raising (iter_program h programs_namespace_prefix) doc
      (Sample.programs sample);
  mret (doc, Sample.set_programs programs sample).

(** [_iter_samples] *)
Definition _iter_samples (self : BioProvDocument) : Result BioProvDocument :=
  '(doc, samples) ←
    for_items_raising iter_sample (ProvDocument self)
      (Project.items (project self));
  mret (set_project (Project.set_samples samples (project self))
          (set_ProvDocument doc self)).

(** [_add_project_namespaces] *)
Definition _add_project_namespaces (self : BioProvDocument)
  : Result BioProvDocument :=
  let self := _add_project_namespace self in
  let self := _add_samples_namespace self in
  let self := _add_activities_namespace self in
  let self := _add_env_and_user_namespace self in
  _iter_samples self.

(** [_add_relationships]: the body is [pass]. *)
Definition _add_relationships (self : BioProvDocument) : BioProvDocument :=
  self.

(** [__init__(self, project, _add_project_namespaces=True,
    add_attributes=True)] *)
Definition __init__ (project : PyObject)
    (_add_project_namespaces_flag add_attributes : bool)
  : Result BioProvDocument :=
  match project with
  | ObjOther repr => raise (AssertionError repr)
  | ObjProject project =>
      let self :=
        {| ProvDocument := prov.new_document; project := project;
           samples_entity := None; activities := None;
           add_attributes := add_attributes |} in
      self ←
        (if _add_project_namespaces_flag then _add_project_namespaces self
         else mret self);
      mret (_add_relationships self)
  end.

(** [BioProvDocument(project)] with the default options. *)
Definition assemble (project : Project.t) : Result BioProvDocument :=
  __init__ (ObjProject project) true true.

(** ** A sample project

    A project tagged [demo] with one sample [S1] that holds one file
    [reads] and one program [prodigal] run once. *)

Definition run1 : Run.t :=
  {| Run.start_time := 10%Z; Run.end_time := 20%Z; Run.status := 0%Z;
     Run.user := "alice" |}.

Definition prodigal : Program.t :=
  {| Program.name := "prodigal"; Program.runs := {[ "1" := run1 ]};
     Program.__str__ := "Program 'prodigal'";
     Program.namespace := None; Program.ProvActivity := None |}.

Definition reads : File.t :=
  {| File.name := "reads"; File.path := "/x/reads.fq"; File.exists_ := true;
     File.metadata := []; File.namespace := None; File.ProvEntity := None |}.

Definition S1 : Sample.t :=
  {| Sample.name := "S1"; Sample.files := [("reads", reads)];
     Sample.programs := [("prodigal", prodigal)];
     Sample.ProvBundle := None; Sample.ProvEntity := None |}.

Definition demo : Project.t :=
  {| Project.tag := "demo"; Project.files := [];
     Project._samples := [("S1", S1)]; Project.envs := [];
     Project.__str__ := "Project 'demo' with 1 samples";
     Project.namespace := None; Project.entity := None |}.

(** ** Closed forms

    What the loops of [_iter_samples] leave in a bundle and on the domain
    objects, written without the loops. *)

(** [program.runs[str(len(program.runs))]], when the key is present. *)
Definition last_run (program : Program.t) : option Run.t :=
  Program.runs program !! pretty (size (Program.runs program)).

Definition file_namespace (f : File.t) : Namespace :=
  {| prefix := File.name f; uri := File.path f |}.

Definition file_identifier (sample_name : string) (f : File.t) : string :=
  (sample_name +:+ ".files") +:+ ":" +:+ File.name f.

Definition file_entity (sample_name : string) (f : File.t) : ProvRecord :=
  ProvEntity (file_identifier sample_name f)
    (build_prov_attributes
       (File.__dict__ (File.set_namespace (Some (file_namespace f)) f))
       (file_namespace f)).

Definition file_derivation (sample_name : string) (f : File.t) : ProvRecord :=
  ProvRelation Derivation (file_identifier sample_name f) sample_name.

Definition file_records (sample_name : string) (f : File.t)
  : list ProvRecord :=
  [file_entity sample_name f; file_derivation sample_name f].

Definition annotated_file (sample_name : string) (f : File.t) : File.t :=
  File.set_ProvEntity (Some (file_entity sample_name f))
    (File.set_namespace (Some (file_namespace f)) f).

Definition program_namespace (p : Program.t) : Namespace :=
  {| prefix := Program.name p; uri := Program.__str__ p |}.

Definition program_identifier (sample_name : string) (p : Program.t)
  : string :=
  (sample_name +:+ ".programs") +:+ ":" +:+ Program.name p.

Definition program_activity (sample_name : string) (p : Program.t)
  : option ProvRecord :=
  (λ r, ProvActivity (program_identifier sample_name p)
          (Run.start_time r) (Run.end_time r)) <$> last_run p.

Definition annotated_program (sample_name : string) (p : Program.t)
  : Program.t :=
  Program.set_ProvActivity (program_activity sample_name p)
    (Program.set_namespace (Some (program_namespace p)) p).

(** The key whose lookup raises in the loop over programs, if any. *)
Fixpoint missing_run (programs : list (string * Program.t)) : option string :=
  match programs with
  | [] => None
  | (_, p) :: rest =>
      match last_run p with
      | None => Some (pretty (size (Program.runs p)))
      | Some _ => missing_run rest
      end
  end.

Definition files_namespace (sample_name : string) : Namespace :=
  {| prefix := sample_name +:+ ".files";
     uri := "Files associated with Sample " +:+ sample_name |}.

Definition sample_entity (s : Sample.t) : ProvRecord :=
  ProvEntity (Sample.name s) [].

(** The bundle of a sample once its loop body has run to the end. *)
Definition sample_bundle (s : Sample.t) : prov.ProvBundle :=
  {| prov.identifier := Some ("samples:" +:+ Sample.name s);
     prov.default_namespace := Some (Sample.name s);
     prov.namespaces :=
       files_namespace (Sample.name s)
         :: (file_namespace ∘ snd <$> Sample.files s)
         ++ (program_namespace ∘ snd <$> Sample.programs s);
     prov.records :=
       sample_entity s
         :: ((Sample.files s) ≫= (file_records (Sample.name s) ∘ snd))
         ++ omap (program_activity (Sample.name s) ∘ snd)
              (Sample.programs s) |}.

(** The sample once its loop body has run to the end, [h] its bundle. *)
Definition annotated_sample (h : nat) (s : Sample.t) : Sample.t :=
  {| Sample.name := Sample.name s;
     Sample.files := prod_map id (annotated_file (Sample.name s))
                       <$> Sample.files s;
     Sample.programs := prod_map id (annotated_program (Sample.name s))
                          <$> Sample.programs s;
     Sample.ProvBundle := Some h;
     Sample.ProvEntity := Some (sample_entity s) |}.

(** The samples after the loop, the first one holding handle [h]. *)
Fixpoint annotated_samples (h : nat) (samples : list (string * Sample.t))
  : list (string * Sample.t) :=
  match samples with
  | [] => []
  | (key, s) :: rest =>
      (key, annotated_sample h s) :: annotated_samples (S h) rest
  end.

(** The key whose lookup raises in the loop over samples, if any. *)
Fixpoint missing_run_in (samples : list (string * Sample.t))
  : option string :=
  match samples with
  | [] => None
  | (_, s) :: rest =>
      match missing_run (Sample.programs s) with
      | Some key => Some key
      | None => missing_run_in rest
      end
  end.

(** The document-level part, built before the samples are visited. *)
Definition project_namespace (p : Project.t) : Namespace :=
  {| prefix := "project"; uri := Project.__str__ p |}.

Definition project_entity (p : Project.t) : ProvRecord :=
  ProvEntity ("project:" +:+ Project.__str__ p)
    (build_prov_attributes
       (filter (λ kv, kv.1 ∉ ["_samples"; "files"])
          (Project.__dict__
             (Project.set_namespace (Some (project_namespace p)) p)))
       (project_namespace p)).

Definition env_records (item : string * Environment.t) : list ProvRecord :=
  [ProvEntity ("envs:" +:+ Environment.__str__ item.2)
     (build_prov_attributes (Environment.env_dict item.2)
        (Environment.env_namespace item.2));
   ProvAgent ("users:" +:+ item.1)].

Definition document_top (p : Project.t) : prov.ProvBundle :=
  {| prov.identifier := None;
     prov.default_namespace := None;
     prov.namespaces :=
       [project_namespace p;
        {| prefix := "samples";
           uri := "Samples associated with bioprov Project '"
                    +:+ Project.tag p +:+ "'" |};
        {| prefix := "envs";
           uri := "Environments associated with BioProv Project '"
                    +:+ Project.tag p +:+ "'" |};
        {| prefix := "users";
           uri := "Users associated with BioProv Project '"
                    +:+ Project.tag p +:+ "'" |}];
     prov.records := project_entity p :: (Project.envs p ≫= env_records) |}.

Definition assembled_document (p : Project.t) : prov.ProvDocument :=
  {| prov.top := document_top p;
     prov.bundles := sample_bundle ∘ snd <$> Project._samples p |}.

Definition annotated_project (p : Project.t) : Project.t :=
  Project.set_samples (annotated_samples 0 (Project._samples p))
    (Project.set_entity (Some (project_entity p))
       (Project.set_namespace (Some (project_namespace p)) p)).

Definition assembled (p : Project.t) : BioProvDocument :=
  {| ProvDocument := assembled_document p;
     project := annotated_project p;
     samples_entity := None; activities := None; add_attributes := true |}.

(** The bundle after the files [fs] were visited. *)
Definition after_files (sample_name : string) (fs : list (string * File.t))
    (b : prov.ProvBundle) : prov.ProvBundle :=
  {| prov.identifier := prov.identifier b;
     prov.default_namespace := prov.default_namespace b;
     prov.namespaces := prov.namespaces b ++ (file_namespace ∘ snd <$> fs);
     prov.records := prov.records b ++ (fs ≫= (file_records sample_name ∘ snd))
  |}.

(** The bundle after the programs [ps] were visited. *)
Definition after_programs (sample_name : string)
    (ps : list (string * Program.t)) (b : prov.ProvBundle) : prov.ProvBundle :=
  {| prov.identifier := prov.identifier b;
     prov.default_namespace := prov.default_namespace b;
     prov.namespaces := prov.namespaces b ++ (program_namespace ∘ snd <$> ps);
     prov.records :=
       prov.records b ++ omap (program_activity sample_name ∘ snd) ps |}.

(** The bundle after one file was visited. *)
Definition after_file (sample_name : string) (f : File.t)
    (b : prov.ProvBundle) : prov.ProvBundle :=
  {| prov.identifier := prov.identifier b;
     prov.default_namespace := prov.default_namespace b;
     prov.namespaces := prov.namespaces b ++ [file_namespace f];
     prov.records := (prov.records b ++ [file_entity sample_name f])
                       ++ [file_derivation sample_name f] |}.

(** ** Reading a document *)

Definition is_relation (r : ProvRecord) : bool :=
  match r with
  | ProvRelation _ _ _ => true
  | _ => false
  end.

Definition is_entity (r : ProvRecord) : bool :=
  match r with
  | ProvEntity _ _ => true
  | _ => false
  end.

(** The relations of a bundle, in the order they were added. *)
Definition relations (b : prov.ProvBundle) : list ProvRecord :=
  filter (λ r, is_relation r) (prov.records b).

(** The entities of a bundle, in the order they were created. *)
Definition entities (b : prov.ProvBundle) : list ProvRecord :=
  filter (λ r, is_entity r) (prov.records b).

(** The identifiers of the nodes of a bundle, in creation order. *)
Definition node_identifiers (b : prov.ProvBundle) : list string :=
  omap prov.record_identifier (prov.records b).



(** Namespace prefixes, node identifiers and relations of a bundle. *)
Definition bundle_outline (b : prov.ProvBundle)
  : option string * list string * list string * list ProvRecord :=
  (prov.identifier b, prov.prefixes b, node_identifiers b, relations b).

(** The same for a whole document: the document level, then each bundle. *)
Definition outline (d : BioProvDocument) :=
  (bundle_outline (prov.top (ProvDocument d)),
   bundle_outline <$> prov.bundles (ProvDocument d)).

Definition result_outline (r : Result BioProvDocument) :=
  match r with
  | inl e => inl e
  | inr d => inr (outline d)
  end.

(** ** The domain content of a project

    The project with every attribute assigned by the assembler cleared:
    what is left is the data the project was built from. *)

Definition domain_file (f : File.t) : File.t :=
  File.set_ProvEntity None (File.set_namespace None f).

Definition domain_program (p : Program.t) : Program.t :=
  Program.set_ProvActivity None (Program.set_namespace None p).

Definition domain_sample (s : Sample.t) : Sample.t :=
  {| Sample.name := Sample.name s;
     Sample.files := prod_map id domain_file <$> Sample.files s;
     Sample.programs := prod_map id domain_program <$> Sample.programs s;
     Sample.ProvBundle := None;
     Sample.ProvEntity := None |}.

Definition domain (p : Project.t) : Project.t :=
  Project.set_samples (prod_map id domain_sample <$> Project._samples p)
    (Project.set_entity None (Project.set_namespace None p)).

(** Every program of the project has a run under [str(len(runs))]. *)
Definition runs_indexed (p : Project.t) : Prop :=
  ∀ ks s kp prog,
    (ks, s) ∈ Project._samples p → (kp, prog) ∈ Sample.programs s →
    is_Some (last_run prog).

(** ** Two more sample projects *)

(** A sample with two files of the same name. *)
Definition reads_copy : File.t :=
  {| File.name := "reads"; File.path := "/y/reads.fq"; File.exists_ := true;
     File.metadata := []; File.namespace := None; File.ProvEntity := None |}.

Definition S2 : Sample.t :=
  {| Sample.name := "S2";
     Sample.files := [("r1", reads); ("r2", reads_copy)];
     Sample.programs := [];
     Sample.ProvBundle := None; Sample.ProvEntity := None |}.

Definition twins : Project.t :=
  {| Project.tag := "twins"; Project.files := [];
     Project._samples := [("S2", S2)]; Project.envs := [];
     Project.__str__ := "Project 'twins' with 1 samples";
     Project.namespace := None; Project.entity := None |}.

(** A sample whose program was never run. *)
Definition idle : Program.t :=
  {| Program.name := "prokka"; Program.runs := ∅;
     Program.__str__ := "Program 'prokka'";
     Program.namespace := None; Program.ProvActivity := None |}.

Definition S3 : Sample.t :=
  {| Sample.name := "S3"; Sample.files := [];
     Sample.programs := [("prokka", idle)];
     Sample.ProvBundle := None; Sample.ProvEntity := None |}.

Definition stalled : Project.t :=
  {| Project.tag := "stalled"; Project.files := [];
     Project._samples := [("S1", S1); ("S3", S3)]; Project.envs := [];
     Project.__str__ := "Project 'stalled' with 2 samples";
     Project.namespace := None; Project.entity := None |}.


(** The attributes the assembler assigns are all set. *)
Definition file_annotated (f : File.t) : Prop :=
  is_Some (File.namespace f) ∧ is_Some (File.ProvEntity f).

Definition program_annotated (g : Program.t) : Prop :=
  is_Some (Program.namespace g) ∧ is_Some (Program.ProvActivity g).

Definition sample_annotated (s : Sample.t) : Prop :=
  is_Some (Sample.ProvBundle s) ∧ is_Some (Sample.ProvEntity s)
  ∧ Forall (file_annotated ∘ snd) (Sample.files s)
  ∧ Forall (program_annotated ∘ snd) (Sample.programs s).

Definition project_annotated (p : Project.t) : Prop :=
  is_Some (Project.namespace p) ∧ is_Some (Project.entity p)
  ∧ Forall (sample_annotated ∘ snd) (Project._samples p).

(** ** More of [BioProvDocument] *)

Definition is_activity (r : ProvRecord) : bool :=
  match r with
  | ProvActivity _ _ _ => true
  | _ => false
  end.

(** The activities of a bundle, in the order they were created. *)
Definition bundle_activities (b : prov.ProvBundle) : list ProvRecord :=
  filter (λ r, is_activity r) (prov.records b).

(** A record without its attributes. *)
Definition without_attributes (r : ProvRecord) : ProvRecord :=
  match r with
  | ProvEntity i _ => ProvEntity i []
  | _ => r
  end.

(** Every program of the samples has a run under [str(len(runs))]. *)
Definition last_runs_present (samples : list (string * Sample.t)) : Prop :=
  Forall (λ ks : string * Sample.t,
            Forall (λ kp : string * Program.t,
                      is_Some (Program.runs kp.2
                                 !! pretty (size (Program.runs kp.2))))
              (Sample.programs ks.2))
    samples.

(** ** [class Workflow] ([bioprov/src/Workflow.py])

    The workflow reads the file system and calls [pandas], [glob],
    [argparse] and [bioprov.from_df].  Their results are not computed
    here: a [World] gives, for each call the class makes, what the call
    returns or raises. *)

Module Workflow.

(** What the workflow can raise: a built-in exception of its own
    ([assert], dictionary lookup), a [TypeError] of the interpreter, or
    whatever a library call raises. *)
Inductive Error :=
| Builtin (e : Exception)
| TypeError (msg : string)
| Foreign (msg : string).

Definition Outcome : Type → Type := sum Error.

#[global] Instance Outcome_ret : MRet Outcome := λ A a, inr a.
#[global] Instance Outcome_bind : MBind Outcome := λ A B k m,
  match m with
  | inl e => inl e
  | inr a => k a
  end.

(** [assert cond, msg] *)
Definition assert_ (cond : bool) (msg : string) : Outcome unit :=
  if cond then mret tt else inl (Builtin (AssertionError msg)).

(** A value that is [None], a [str] or a tuple of [str]: [file_columns]
    and [file_extensions]. *)
Inductive Columns :=
| ColNone
| ColStr (s : string)
| ColTuple (items : list string).

(** [isinstance(c, str)] *)
Definition isinstance_str (c : Columns) : bool :=
  match c with
  | ColStr _ => true
  | _ => false
  end.

(** [for x in c]: [None] is not iterable, a [str] yields its characters. *)
Definition iterate (c : Columns) : Outcome (list string) :=
  match c with
  | ColNone => inl (TypeError "'NoneType' object is not iterable")
  | ColStr s => mret ((λ a, String a "") <$> list_ascii_of_string s)
  | ColTuple items => mret items
  end.

Record World := {
  DataFrame : Type;
  Row : Type;
  SampleSet : Type;
  Parser : Type;
  Steps : Type;
  (** [os.path.isfile], [os.path.isdir], [os.path.join], [glob.glob] *)
  isfile : string → bool;
  isdir : string → bool;
  path_join : string → string → string;
  glob : string → list string;
  (** [warnings["not_exist"]] of [bioprov.utils] *)
  not_exist : string;
  (** [pd.read_csv(input_, sep=sep)] *)
  read_csv : string → string → Outcome DataFrame;
  (** [df.columns] *)
  columns : DataFrame → list string;
  (** [df[file_columns].iterrows()] and [row[column]] *)
  iterrows : DataFrame → Columns → Outcome (list Row);
  row_get : Row → string → Outcome string;
  (** [pd.DataFrame(files)], [df.columns = (file_columns,)] and
      [df["sample-id"] = df[file_columns].apply(...)] *)
  frame_of_files : list string → DataFrame;
  set_columns : DataFrame → Columns → Outcome DataFrame;
  add_sample_id : DataFrame → Columns → Outcome DataFrame;
  (** [print(warnings["sample_loading"](len(df)))] *)
  announce_loading : DataFrame → Outcome unit;
  (** [from_df(df, index_col=..., file_cols=..., tag=...)] *)
  from_df : DataFrame → string → Columns → option string → Outcome SampleSet;
  (** [argparse.ArgumentParser(name, description=...)],
      [parser.add_argument(flags..., help=...)] and the help text of
      [--input] *)
  ArgumentParser : option string → option string → Parser;
  add_argument : list string → option string → Parser → Outcome Parser;
  input_help : string → Columns → string
}.

Section methods.
Context {W : World}.

(** The attributes of a [Workflow]. *)
Record t := {
  name : option string;
  description : option string;
  input : option string;
  input_type : string;
  index_col : string;
  file_columns : Columns;
  file_extensions : Columns;
  steps : option (Steps W);
  parser : option (Parser W);
  tag : option string;
  verbose : option bool;
  threads : option Z;
  sep : string;
  success : Z;
  kwargs : list (string * string);
  sampleset : option (SampleSet W)
}.

Definition set_file_columns (v : Columns) (self : t) : t :=
  {| name := name self; description := description self;
     input := input self; input_type := input_type self;
     index_col := index_col self; file_columns := v;
     file_extensions := file_extensions self; steps := steps self;
     parser := parser self; tag := tag self; verbose := verbose self;
     threads := threads self; sep := sep self; success := success self;
     kwargs := kwargs self; sampleset := sampleset self |}.

Definition set_file_extensions (v : Columns) (self : t) : t :=
  {| name := name self; description := description self;
     input := input self; input_type := input_type self;
     index_col := index_col self; file_columns := file_columns self;
     file_extensions := v; steps := steps self;
     parser := parser self; tag := tag self; verbose := verbose self;
     threads := threads self; sep := sep self; success := success self;
     kwargs := kwargs self; sampleset := sampleset self |}.

Definition set_sampleset (v : option (SampleSet W)) (self : t) : t :=
  {| name := name self; description := description self;
     input := input self; input_type := input_type self;
     index_col := index_col self; file_columns := file_columns self;
     file_extensions := file_extensions self; steps := steps self;
     parser := parser self; tag := tag self; verbose := verbose self;
     threads := threads self; sep := sep self; success := success self;
     kwargs := kwargs self; sampleset := v |}.

Definition set_parser (v : option (Parser W)) (self : t) : t :=
  {| name := name self; description := description self;
     input := input self; input_type := input_type self;
     index_col := index_col self; file_columns := file_columns self;
     file_extensions := file_extensions self; steps := steps self;
     parser := v; tag := tag self; verbose := verbose self;
     threads := threads self; sep := sep self; success := success self;
     kwargs := kwargs self; sampleset := sampleset self |}.

(** A path handed to [os.path]: [None] is a [TypeError]. *)
Definition as_path (p : option string) : Outcome string :=
  match p with
  | Some s => mret s
  | None =>
      inl (TypeError
             "stat: path should be string, bytes, os.PathLike or integer, not NoneType")
  end.

(** [_sampleset_from_dataframe] *)
Definition _sampleset_from_dataframe (self : t) (df : DataFrame W)
  : Outcome (SampleSet W) :=
  _ ← announce_loading W df;
  from_df W df (index_col self) (file_columns self) (tag self).

(** The inner loop of [_load_dataframe_input]: [for column in
    file_columns], asserting that [row[column]] is a file. *)
Fixpoint check_columns (row : Row W) (cols : list string) : Outcome unit :=
  match cols with
  | [] => mret tt
  | column :: rest =>
      file_ ← row_get W row column;
      _ ← assert_ (isfile W file_)
            ("File '" +:+ file_
               +:+ "' was not found! Make sure all file paths are correct in input file.");
      check_columns row rest
  end.

(** The outer loop: [for ix, row in df[file_columns].iterrows()]. *)
Fixpoint check_rows (rows : list (Row W)) (file_columns : Columns)
  : Outcome unit :=
  match rows with
  | [] => mret tt
  | row :: rest =>
      cols ← iterate file_columns;
      _ ← check_columns row cols;
      check_rows rest file_columns
  end.

(** [_load_dataframe_input] *)
Definition _load_dataframe_input (self : t) : Outcome (SampleSet W * t) :=
  input_ ← as_path (input self);
  _ ← assert_ (isfile W input_) (not_exist W);
  df ← read_csv W input_ (sep self);
  _ ← assert_ (bool_decide (index_col self ∈ columns W df))
        ("Column '" +:+ index_col self +:+ "' is not in input file '"
           +:+ input_ +:+ "'. Please check file.");
  let '(file_columns, self) :=
    match file_columns self with
    | ColStr s => (ColTuple [s], set_file_columns (ColTuple [s]) self)
    | c => (c, self)
    end in
  rows ← iterrows W df file_columns;
  _ ← check_rows rows file_columns;
  sampleset ← _sampleset_from_dataframe self df;
  mret (sampleset, self).

(** The loop of [_load_directory_input]:
    [files += glob(path.join(directory, "*." + ext))]. *)
Fixpoint glob_extensions (directory : string) (files : list string)
    (exts : list string) : list string :=
  match exts with
  | [] => files
  | ext :: rest =>
      glob_extensions directory
        (files ++ glob W (path_join W directory ("*." +:+ ext))) rest
  end.

(** [_load_directory_input] *)
Definition _load_directory_input (self : t) : Outcome (SampleSet W * t) :=
  directory ← as_path (input self);
  _ ← assert_ (isdir W directory)
        ("Input directory '" +:+ directory +:+ "' not found.");
  let '(file_extensions, self) :=
    match file_extensions self with
    | ColStr s => (ColTuple [s], set_file_extensions (ColTuple [s]) self)
    | c => (c, self)
    end in
  exts ← iterate file_extensions;
  let files := glob_extensions directory [] exts in
  let df := frame_of_files W files in
  df ← set_columns W df (file_columns self);
  df ← add_sample_id W df (file_columns self);
  sampleset ← _sampleset_from_dataframe self df;
  mret (sampleset, self).

(** [generate_sampleset]: both entries of the dictionary are evaluated,
    then the one under [self.input_type] is taken. *)
Definition generate_sampleset (self : t) : Outcome t :=
  '(from_dataframe, self) ← _load_dataframe_input self;
  '(from_directory, self) ← _load_directory_input self;
  sampleset ←
    (if String.eqb (input_type self) "dataframe" then mret from_dataframe
     else if String.eqb (input_type self) "directory" then mret from_directory
     else inl (Builtin (KeyError (input_type self))));
  mret (set_sampleset (Some sampleset) self).

(** [generate_parser] *)
Definition generate_parser (self : t) : Outcome (Parser W) :=
  let parser := ArgumentParser W (name self) (description self) in
  parser ← add_argument W ["-i"; "--input"]
             (Some (input_help W (index_col self) (file_columns self)))
             parser;
  parser ← add_argument W [] None parser;
  mret parser.

(** [__init__]: [self] arrives with the attributes set from the
    arguments; [success], [sampleset] and [parser] are reset first. *)
Definition __init__ (self : t) : Outcome t :=
  let self :=
    {| name := name self; description := description self;
       input := input self; input_type := input_type self;
       index_col := index_col self; file_columns := file_columns self;
       file_extensions := file_extensions self; steps := steps self;
       parser := None; tag := tag self; verbose := verbose self;
       threads := threads self; sep := sep self; success := 0;
       kwargs := kwargs self; sampleset := None |} in
  self ← (if input self is Some _ then generate_sampleset self
          else mret self);
  if bool_decide (is_Some (name self) ∧ is_Some (description self)
                  ∧ is_Some (steps self))
  then parser ← generate_parser self; mret (set_parser (Some parser) self)
  else mret self.

End methods.

Arguments t : clear implicits.

(** A world with the files [samples.tsv], [a.fasta], [data/a.fasta] and
    [data/b.fna] and the directory [data].  The table read from [samples.tsv] has one
    row; selecting columns with a tuple or [None] raises [KeyError], as
    [pandas] does, and a [Series] has no [iterrows]; naming the columns of
    a table without columns raises [ValueError]; [add_argument] without
    flags raises [TypeError], as [argparse] does. *)
Definition small_world : World :=
  {| DataFrame := list string; Row := string; SampleSet := list string;
     Parser := list (list string); Steps := unit;
     isfile := λ p, bool_decide (p = "samples.tsv" ∨ p = "a.fasta"
                                 ∨ p = "data/a.fasta");
     isdir := λ p, bool_decide (p = "data");
     path_join := λ a b, a +:+ "/" +:+ b;
     glob := λ pattern,
       if bool_decide (pattern = "data/*.fasta") then ["data/a.fasta"]
       else if bool_decide (pattern = "data/*.fna") then ["data/b.fna"]
       else [];
     not_exist := "File does not exist";
     read_csv := λ _ _, inr ["a.fasta"];
     columns := λ _, ["sample-id"; "assembly"];
     iterrows := λ df cols,
       match cols with
       | ColStr _ => inl (Foreign "AttributeError")
       | _ => inl (Builtin (KeyError "file_columns"))
       end;
     row_get := λ row _, inr row;
     frame_of_files := λ files, files;
     set_columns := λ df _,
       match df with
       | [] => inl (Foreign "ValueError")
       | _ => inr df
       end;
     add_sample_id := λ df _, inr df;
     announce_loading := λ _, inr tt;
     from_df := λ df _ _ _, inr df;
     ArgumentParser := λ _ _, [];
     add_argument := λ flags _ p,
       match flags with
       | [] => inl (TypeError "missing 1 required positional argument: 'dest'")
       | _ => inr (p ++ [flags])
       end;
     input_help := λ _ _, "" |}.

Definition small_workflow (input : option string) : t small_world :=
  {| name := None; description := None; input := input;
     input_type := "dataframe"; index_col := "sample-id";
     file_columns := ColStr "assembly"; file_extensions := ColNone;
     steps := None; parser := None; tag := None; verbose := None;
     threads := None; sep := "	"; success := 0; kwargs := [];
     sampleset := None |}.

End Workflow.

(** ** The namespaces a bundle registers

    [prov.namespaces] lists the namespaces the assembler asks a bundle to
    register, in call order.  What the bundle then holds is decided by the
    library's [NamespaceManager.add_namespace]: a request equal to a
    namespace already held, or with a URI already registered, adds
    nothing; a request whose prefix is taken is registered under the first
    free prefix among [<prefix>_1], [<prefix>_2], ...; any other request is
    registered as it is. *)

#[global] Instance Namespace_eq_dec : EqDecision Namespace.
Proof. solve_decision. Defined.

Module NamespaceManager.

(** [DEFAULT_NAMESPACES]: held by every manager, not registered. *)
Definition DEFAULT_NAMESPACES : list Namespace :=
  [{| prefix := "prov"; uri := "http://www.w3.org/ns/prov#" |};
   {| prefix := "xsd"; uri := "http://www.w3.org/2001/XMLSchema#" |};
   {| prefix := "xsi"; uri := "http://www.w3.org/2001/XMLSchema-instance" |}].

(** [self.values()]: the default namespaces, the registered ones and, once
    [set_default_namespace(uri)] was called, the namespace with the empty
    prefix. *)
Definition values (default : option string) (registered : list Namespace)
  : list Namespace :=
  DEFAULT_NAMESPACES ++ registered
  ++ match default with
     | Some u => [{| prefix := ""; uri := u |}]
     | None => []
     end.

(** ["_".join((original_prefix, str(count)))] *)
Definition renamed (original_prefix : string) (count : nat) : string :=
  original_prefix +:+ "_" +:+ pretty count.

(** [_get_unused_prefix]: the loop over [count = 1, 2, ...] stops at the
    first prefix not taken, which comes within [len(taken) + 1] rounds. *)
Definition _get_unused_prefix (taken : list string)
    (original_prefix : string) : string :=
  if decide (original_prefix ∈ taken) then
    match list_find (λ count, renamed original_prefix count ∉ taken)
            (seq 1 (S (length taken))) with
    | Some (_, count) => renamed original_prefix count
    | None => original_prefix
    end
  else original_prefix.

(** [add_namespace(namespace)]: the namespace returned and the registered
    namespaces afterwards. *)
Definition add_namespace (namespace : Namespace) (default : option string)
    (registered : list Namespace) : Namespace * list Namespace :=
  let held := values default registered in
  if decide (namespace ∈ held) then (namespace, registered)
  else
    match list_find (λ x, uri x = uri namespace) registered with
    | Some (_, existing_ns) => (existing_ns, registered)
    | None =>
        let namespace :=
          if decide (prefix namespace ∈ prefix <$> held)
          then {| prefix := _get_unused_prefix (prefix <$> held)
                              (prefix namespace);
                  uri := uri namespace |}
          else namespace in
        (namespace, registered ++ [namespace])
    end.


End NamespaceManager.



(** The class of an exception, as [type(e).__name__] gives it. *)
Definition exception_class (e : Exception) : string :=
  match e with
  | AssertionError _ => "AssertionError"
  | KeyError _ => "KeyError"
  end.

(** ** More sample projects *)

(** A program run three times, beside [prodigal]. *)
Definition prokka : Program.t :=
  {| Program.name := "prokka";
     Program.runs :=
       {[ "1" := {| Run.start_time := 30%Z; Run.end_time := 40%Z;
                    Run.status := 1%Z; Run.user := "alice" |};
          "2" := {| Run.start_time := 50%Z; Run.end_time := 60%Z;
                    Run.status := 1%Z; Run.user := "alice" |};
          "3" := {| Run.start_time := 70%Z; Run.end_time := 85%Z;
                    Run.status := 0%Z; Run.user := "bob" |} ]};
     Program.__str__ := "Program 'prokka'";
     Program.namespace := None; Program.ProvActivity := None |}.

Definition S4 : Sample.t :=
  {| Sample.name := "S4"; Sample.files := [("reads", reads)];
     Sample.programs := [("prodigal", prodigal); ("prokka", prokka)];
     Sample.ProvBundle := None; Sample.ProvEntity := None |}.

Definition rerun : Project.t :=
  {| Project.tag := "rerun"; Project.files := [];
     Project._samples := [("S1", S1); ("S4", S4)]; Project.envs := [];
     Project.__str__ := "Project 'rerun' with 2 samples";
     Project.namespace := None; Project.entity := None |}.

(** A program with two runs, kept under the keys [2] and [7]. *)
Definition resumed : Program.t :=
  {| Program.name := "cog";
     Program.runs :=
       {[ "2" := {| Run.start_time := 11%Z; Run.end_time := 12%Z;
                    Run.status := 0%Z; Run.user := "alice" |};
          "7" := {| Run.start_time := 90%Z; Run.end_time := 95%Z;
                    Run.status := 0%Z; Run.user := "alice" |} ]};
     Program.__str__ := "Program 'cog'";
     Program.namespace := None; Program.ProvActivity := None |}.

Definition S5 : Sample.t :=
  {| Sample.name := "S5"; Sample.files := [];
     Sample.programs := [("prodigal", prodigal); ("cog", resumed)];
     Sample.ProvBundle := None; Sample.ProvEntity := None |}.

Definition gappy : Project.t :=
  {| Project.tag := "gappy"; Project.files := [];
     Project._samples := [("S5", S5)]; Project.envs := [];
     Project.__str__ := "Project 'gappy' with 1 samples";
     Project.namespace := None; Project.entity := None |}.




(** The project [demo] with the environment of one user. *)
Definition workstation : Environment.t :=
  {| Environment.__str__ := "Environment_3f2a";
     Environment.env_dict :=
       [("SHELL", VStr "/bin/sh"); ("PATH", VSeq ["/usr/bin"; "/bin"])];
     Environment.env_namespace :=
       {| prefix := "env"; uri := "Environment_3f2a" |} |}.

Definition lab : Project.t :=
  {| Project.tag := "lab"; Project.files := [];
     Project._samples := [("S1", S1)];
     Project.envs := [("alice", workstation)];
     Project.__str__ := "Project 'lab' with 1 samples";
     Project.namespace := None; Project.entity := None |}.

(** Workflows on the directory [data]: one extension given as a [str],
    two given as a tuple. *)
Definition fasta_workflow : Workflow.t Workflow.small_world :=
  Workflow.set_file_extensions (W := Workflow.small_world)
    (Workflow.ColStr "fasta") (Workflow.small_workflow (Some "data")).

Definition two_extension_workflow : Workflow.t Workflow.small_world :=
  Workflow.set_file_extensions (W := Workflow.small_world)
    (Workflow.ColTuple ["fna"; "fasta"])
    (Workflow.small_workflow (Some "data")).

(** A workflow without input, constructed with a parser. *)
Definition workflow_with_parser : Workflow.t Workflow.small_world :=
  Workflow.set_parser (W := Workflow.small_world) (Some [["-x"]])
    (Workflow.small_workflow None).

(** ** Tactics *)

(** Decides a closed decidable statement by evaluation. *)
Ltac by_evaluation := apply (bool_decide_unpack _); vm_compute; exact I.

(** ** The loops reach their closed forms *)

Lemma on_bundle_last {A} (m : prov.ProvBundle → A * prov.ProvBundle) t l b :
  prov.on_bundle (length l) m {| prov.top := t; prov.bundles := l ++ [b] |}
  = ((m b).1, {| prov.top := t; prov.bundles := l ++ [(m b).2] |}).
Proof.
  unfold prov.on_bundle; simpl.
  rewrite list_lookup_middle by done; simpl.
  destruct (m b) as [a b']; simpl.
  rewrite insert_app_r_alt by lia.
  by rewrite Nat.sub_diag.
Qed.

Lemma iter_file_last sample_name t l b f :
  iter_file (length l) (sample_name +:+ ".files") (ProvEntity sample_name [])
    {| prov.top := t; prov.bundles := l ++ [b] |} f
  = ({| prov.top := t; prov.bundles := l ++ [after_file sample_name f b] |},
     annotated_file sample_name f).
Proof. unfold iter_file. by rewrite !on_bundle_last. Qed.

Lemma files_loop sample_name t l fs : ∀ b,
  for_items
    (iter_file (length l) (sample_name +:+ ".files")
       (ProvEntity sample_name []))
    {| prov.top := t; prov.bundles := l ++ [b] |} fs
  = ({| prov.top := t; prov.bundles := l ++ [after_files sample_name fs b] |},
     prod_map id (annotated_file sample_name) <$> fs).
Proof.
  induction fs as [|[key f] fs IH]; intros b; cbn [for_items].
  - unfold after_files; cbn. rewrite !app_nil_r. by destruct b.
  - rewrite iter_file_last, IH. unfold after_files, after_file; cbn.
    rewrite <- !app_assoc. reflexivity.
Qed.

Lemma iter_program_last sample_name t l b p :
  iter_program (length l) (sample_name +:+ ".programs")
    {| prov.top := t; prov.bundles := l ++ [b] |} p
  = match last_run p with
    | None => inl (KeyError (pretty (size (Program.runs p))))
    | Some _ =>
        inr ({| prov.top := t;
                prov.bundles := l ++ [after_programs sample_name [("", p)] b]
             |}, annotated_program sample_name p)
    end.
Proof.
  unfold iter_program. rewrite on_bundle_last.
  unfold getitem.
  cbn [fst snd prov.add_namespace Program.runs Program.set_namespace].
  fold (last_run p). destruct (last_run p) as [r|] eqn:E; [|done].
  cbn [mbind Result_bind mret Result_ret]. rewrite on_bundle_last.
  unfold after_programs, annotated_program.
  cbn. unfold program_activity. rewrite E. reflexivity.
Qed.

Lemma after_programs_cons sample_name k k' p ps b :
  after_programs sample_name ps (after_programs sample_name [(k', p)] b)
  = after_programs sample_name ((k, p) :: ps) b.
Proof.
  unfold after_programs; cbn.
  destruct (program_activity sample_name p); cbn;
    by rewrite <- ?app_assoc, ?app_nil_r.
Qed.

Lemma programs_loop sample_name t l ps : ∀ b,
  for_items_raising (iter_program (length l) (sample_name +:+ ".programs"))
    {| prov.top := t; prov.bundles := l ++ [b] |} ps
  = match missing_run ps with
    | Some key => inl (KeyError key)
    | None =>
        inr ({| prov.top := t;
                prov.bundles := l ++ [after_programs sample_name ps b] |},
             prod_map id (annotated_program sample_name) <$> ps)
    end.
Proof.
  induction ps as [|[key p] ps IH]; intros b;
    cbn [for_items_raising missing_run].
  - unfold after_programs; cbn. rewrite !app_nil_r. by destruct b.
  - rewrite iter_program_last.
    destruct (last_run p) as [r|] eqn:E; [|done].
    cbn [mbind Result_bind]. rewrite IH.
    destruct (missing_run ps); [done|].
    by rewrite (after_programs_cons _ key).
Qed.

Lemma iter_sample_closed t l s :
  iter_sample {| prov.top := t; prov.bundles := l |} s
  = match missing_run (Sample.programs s) with
    | Some key => inl (KeyError key)
    | None =>
        inr ({| prov.top := t; prov.bundles := l ++ [sample_bundle s] |},
             annotated_sample (length l) s)
    end.
Proof.
  unfold iter_sample, prov.bundle.
  cbn [prov.top prov.bundles Sample.name Sample.files Sample.programs
       Sample.set_ProvBundle Sample.set_ProvEntity Sample.set_files].
  rewrite on_bundle_last. cbn [fst snd prov.set_default_namespace].
  rewrite on_bundle_last. cbn [fst snd prov.entity].
  rewrite on_bundle_last. cbn [fst snd prov.add_namespace].
  rewrite files_loop, programs_loop.
  destruct (missing_run (Sample.programs s)); [done|].
  reflexivity.
Qed.

Lemma samples_loop t samples : ∀ l,
  for_items_raising iter_sample {| prov.top := t; prov.bundles := l |} samples
  = match missing_run_in samples with
    | Some key => inl (KeyError key)
    | None =>
        inr ({| prov.top := t;
                prov.bundles := l ++ (sample_bundle ∘ snd <$> samples) |},
             annotated_samples (length l) samples)
    end.
Proof.
  induction samples as [|[key s] samples IH]; intros l;
    cbn [for_items_raising missing_run_in annotated_samples].
  - cbn. by rewrite app_nil_r.
  - rewrite iter_sample_closed.
    destruct (missing_run (Sample.programs s)); [done|].
    cbn [mbind Result_bind]. rewrite IH.
    destruct (missing_run_in samples); [done|].
    cbn. rewrite <- app_assoc, length_app, Nat.add_1_r. reflexivity.
Qed.

Lemma envs_loop t0 bs envs : ∀ t,
  prov.identifier t = prov.identifier t0 →
  prov.default_namespace t = prov.default_namespace t0 →
  prov.namespaces t = prov.namespaces t0 →
  ∃ t',
    foldl (add_env_and_user true) {| prov.top := t; prov.bundles := bs |} envs
    = {| prov.top := t'; prov.bundles := bs |}
    ∧ prov.identifier t' = prov.identifier t0
    ∧ prov.default_namespace t' = prov.default_namespace t0
    ∧ prov.namespaces t' = prov.namespaces t0
    ∧ prov.records t' = prov.records t ++ (envs ≫= env_records).
Proof.
  induction envs as [|[u e] envs IH]; intros t Hi Hd Hn; cbn [foldl].
  - exists t. cbn. by rewrite app_nil_r.
  - cbn [add_env_and_user prov.on_document prov.top prov.bundles
         prov.entity prov.agent].
    edestruct IH as (t' & -> & ? & ? & ? & Hr); [..|exists t'];
      [done..|].
    repeat split; try done.
    rewrite Hr. cbn. by rewrite <- !app_assoc.
Qed.

(** Default assembly either raises the [KeyError] of the first program
    that has no run under the key [str(len(runs))], or returns the closed
    form. *)
Lemma assemble_closed p :
  assemble p
  = match missing_run_in (Project._samples p) with
    | Some key => inl (KeyError key)
    | None => inr (assembled p)
    end.
Proof.
  unfold assemble, __init__, _add_project_namespaces, _iter_samples.
  unfold _add_env_and_user_namespace, _add_activities_namespace,
    _add_samples_namespace, _add_project_namespace.
  cbn [ProvDocument project add_attributes set_ProvDocument set_project
       prov.new_document prov.on_document prov.top prov.bundles
       prov.add_namespace prov.entity prov.new_bundle prov.namespaces
       prov.add_record prov.records prov.identifier prov.default_namespace
       app length Nat.eqb Project.set_namespace Project.set_entity
       Project.__str__ Project.tag Project.envs Project.items
       Project._samples].
  edestruct (envs_loop (document_top p) [] (Project.envs p))
    as (t' & -> & Hi & Hd & Hn & Hr); [reflexivity..|].
  rewrite samples_loop.
  destruct (missing_run_in (Project._samples p)); [done|].
  cbn. unfold _add_relationships, assembled, assembled_document. cbn.
  do 2 f_equal. f_equal.
  destruct t'; cbn in *; subst. reflexivity.
Qed.

(** ** Helper lemmas *)

Lemma missing_run_None ps :
  missing_run ps = None ↔ ∀ k p, (k, p) ∈ ps → is_Some (last_run p).
Proof.
  induction ps as [|[k p] ps IH]; cbn [missing_run].
  - split; [|done]. intros _ k p H. by apply elem_of_nil in H.
  - destruct (last_run p) as [r|] eqn:E.
    + rewrite IH. split.
      * intros H k' p' [[= -> ->]|Hin]%elem_of_cons; [by rewrite E|eauto].
      * intros H k' p' Hin. apply (H k'). by right.
    + split; [done|]. intros H.
      destruct (H k p) as [r Hr]; [by left|congruence].
Qed.

Lemma missing_run_Some ps key :
  missing_run ps = Some key →
  ∃ k p, (k, p) ∈ ps ∧ last_run p = None
         ∧ key = pretty (size (Program.runs p)).
Proof.
  induction ps as [|[k p] ps IH]; cbn [missing_run]; [done|].
  destruct (last_run p) as [r|] eqn:E.
  - intros (k' & p' & ? & ?)%IH. exists k', p'. split; [by right|done].
  - intros [= <-]. exists k, p. split; [by left|done].
Qed.

Lemma missing_run_in_None samples :
  missing_run_in samples = None
  ↔ ∀ ks s, (ks, s) ∈ samples → missing_run (Sample.programs s) = None.
Proof.
  induction samples as [|[k s] samples IH]; cbn [missing_run_in].
  - split; [|done]. intros _ ks s' H. by apply elem_of_nil in H.
  - destruct (missing_run (Sample.programs s)) as [key|] eqn:E.
    + split; [done|]. intros H. specialize (H k s). rewrite E in H.
      by discriminate H; left.
    + rewrite IH. split.
      * intros H k' s' [[= -> ->]|Hin]%elem_of_cons; eauto.
      * intros H k' s' Hin. apply (H k'). by right.
Qed.

Lemma missing_run_in_Some samples key :
  missing_run_in samples = Some key →
  ∃ ks s, (ks, s) ∈ samples ∧ missing_run (Sample.programs s) = Some key.
Proof.
  induction samples as [|[k s] samples IH]; cbn [missing_run_in]; [done|].
  destruct (missing_run (Sample.programs s)) as [key'|] eqn:E.
  - intros [= <-]. exists k, s. split; [by left|done].
  - intros (k' & s' & ? & ?)%IH. exists k', s'. split; [by right|done].
Qed.

Lemma runs_indexed_missing p :
  runs_indexed p ↔ missing_run_in (Project._samples p) = None.
Proof.
  rewrite missing_run_in_None. unfold runs_indexed. split.
  - intros H ks s Hs. apply missing_run_None. eauto.
  - intros H ks s kp prog Hs Hp.
    eapply missing_run_None in H; eauto.
Qed.

Lemma assemble_inr p d :
  assemble p = inr d →
  d = assembled p ∧ missing_run_in (Project._samples p) = None.
Proof.
  rewrite assemble_closed.
  destruct (missing_run_in (Project._samples p)); [done|].
  by intros [= <-].
Qed.

Lemma assemble_inl p e :
  assemble p = inl e →
  ∃ key, e = KeyError key ∧ missing_run_in (Project._samples p) = Some key.
Proof.
  rewrite assemble_closed.
  destruct (missing_run_in (Project._samples p)) as [key|]; [|done].
  intros [= <-]. eauto.
Qed.

Lemma assembled_bundle p i ks s :
  Project._samples p !! i = Some (ks, s) →
  prov.bundles (ProvDocument (assembled p)) !! i = Some (sample_bundle s).
Proof. intros H. cbn. by rewrite list_lookup_fmap, H. Qed.





Section filters.
Context (P : ProvRecord → bool).

Lemma filter_file_records sample_name
    (keep : File.t → list ProvRecord) (fs : list (string * File.t)) :
  (∀ f, filter (λ r, P r) (file_records sample_name f) = keep f) →
  filter (λ r, P r) (fs ≫= (file_records sample_name ∘ snd))
  = fs ≫= (keep ∘ snd).
Proof.
  intros Hkeep. induction fs as [|[k f] fs IH]; [done|].
  rewrite !bind_cons, filter_app, IH. unfold compose at 1 3; cbn [snd].
  by rewrite Hkeep.
Qed.

Lemma filter_activities sample_name (ps : list (string * Program.t)) :
  (∀ i s e, P (ProvActivity i s e) = false) →
  filter (λ r, P r) (omap (program_activity sample_name ∘ snd) ps) = [].
Proof.
  intros HP. induction ps as [|[k p] ps IH]; [done|].
  cbn [omap list_omap compose snd].
  destruct (program_activity sample_name p) as [y|] eqn:E; [|done].
  unfold program_activity in E. destruct (last_run p); simplify_eq/=.
  rewrite filter_cons_False; [exact IH|]. rewrite HP. cbn. tauto.
Qed.
End filters.

Lemma bind_singleton_fmap {A B} (f : A → B) (l : list A) :
  l ≫= (λ x, [f x]) = f <$> l.
Proof. induction l; cbn; [done|]. by f_equal. Qed.

Lemma sample_bundle_relations s :
  relations (sample_bundle s)
  = file_derivation (Sample.name s) ∘ snd <$> Sample.files s.
Proof.
  unfold relations, sample_bundle; cbn [prov.records].
  rewrite filter_cons_False by (cbn; auto).
  rewrite filter_app, filter_activities by done.
  rewrite (filter_file_records _ _ (λ f, [file_derivation (Sample.name s) f]))
    by done.
  by rewrite app_nil_r, <- bind_singleton_fmap.
Qed.

Lemma sample_bundle_entities s :
  entities (sample_bundle s)
  = sample_entity s :: (file_entity (Sample.name s) ∘ snd <$> Sample.files s).
Proof.
  unfold entities, sample_bundle; cbn [prov.records].
  rewrite filter_cons_True by (cbn; auto).
  rewrite filter_app, filter_activities by done.
  rewrite (filter_file_records _ _ (λ f, [file_entity (Sample.name s) f]))
    by done.
  by rewrite app_nil_r, <- bind_singleton_fmap.
Qed.


Lemma annotated_samples_lookup samples : ∀ h i ks s,
  samples !! i = Some (ks, s) →
  annotated_samples h samples !! i = Some (ks, annotated_sample (h + i) s).
Proof.
  induction samples as [|[k s0] samples IH]; intros h i ks s; [done|].
  destruct i as [|i]; cbn [annotated_samples].
  - intros [= -> ->]. by rewrite Nat.add_0_r.
  - intros H. change (annotated_samples (S h) samples !! i
                      = Some (ks, annotated_sample (h + S i) s)).
    rewrite (IH (S h) i ks s H). do 3 f_equal. lia.
Qed.

Lemma last_runs_present_missing samples :
  last_runs_present samples ↔ missing_run_in samples = None.
Proof.
  unfold last_runs_present.
  rewrite missing_run_in_None, Forall_forall. split.
  - intros H ks s Hs. apply missing_run_None. intros k p Hp.
    specialize (H _ Hs). cbn in H. rewrite Forall_forall in H.
    apply (H _ Hp).
  - intros H [ks s] Hs. apply Forall_forall. intros [k p] Hp.
    specialize (H _ _ Hs). eapply missing_run_None in H; eauto.
Qed.

Lemma bind_const_nil {A B} (l : list A) : l ≫= (λ _, @nil B) = [].
Proof. by induction l. Qed.

Lemma sample_bundle_activities s :
  bundle_activities (sample_bundle s)
  = omap (program_activity (Sample.name s) ∘ snd) (Sample.programs s).
Proof.
  unfold bundle_activities, sample_bundle; cbn [prov.records].
  rewrite filter_cons_False by (cbn; auto).
  rewrite filter_app.
  rewrite (filter_file_records _ _ (λ _, [])) by done.
  change ((λ _ : File.t, @nil ProvRecord) ∘ snd)
    with (λ _ : string * File.t, @nil ProvRecord).
  rewrite bind_const_nil. cbn [app].
  induction (Sample.programs s) as [|[k g] ps IH]; [done|].
  cbn [omap list_omap compose snd].
  destruct (program_activity (Sample.name s) g) as [y|] eqn:E; [|done].
  unfold program_activity in E. destruct (last_run g); simplify_eq/=.
  rewrite filter_cons_True by (cbn; auto). by f_equal.
Qed.

Lemma program_activities_cons sample_name (k : string) g r ps :
  last_run g = Some r →
  omap (program_activity sample_name ∘ snd) ((k, g) :: ps)
  = ProvActivity (program_identifier sample_name g)
      (Run.start_time r) (Run.end_time r)
    :: omap (program_activity sample_name ∘ snd) ps.
Proof.
  intros E. cbn [omap list_omap compose snd].
  unfold program_activity at 1. by rewrite E.
Qed.

Lemma program_activities_length sample_name ps :
  missing_run ps = None →
  length (omap (program_activity sample_name ∘ snd) ps) = length ps.
Proof.
  induction ps as [|[k g] ps IH]; [done|]. cbn [missing_run].
  destruct (last_run g) as [r|] eqn:E; [|done]. intros H.
  rewrite (program_activities_cons _ _ _ _ _ E). cbn. by rewrite IH.
Qed.

Lemma program_activities_lookup sample_name ps : ∀ j kp g,
  missing_run ps = None →
  ps !! j = Some (kp, g) →
  omap (program_activity sample_name ∘ snd) ps !! j
  = program_activity sample_name g.
Proof.
  induction ps as [|[k g0] ps IH]; intros j kp g; [done|].
  cbn [missing_run].
  destruct (last_run g0) as [r|] eqn:E; [|done]. intros Hruns.
  rewrite (program_activities_cons _ _ _ _ _ E).
  destruct j as [|j]; cbn.
  - intros [= -> ->]. unfold program_activity. by rewrite E.
  - intros H. by apply (IH j kp g).
Qed.

(** ** Properties *)

(** The constructor rejects anything that is not a [Project]. *)
Lemma __init___not_a_project repr flag attrs :
  __init__ (ObjOther repr) flag attrs = inl (AssertionError repr).
Proof. reflexivity. Qed.

(** Without [_add_project_namespaces] the document stays empty and the
    project is not visited. *)
Lemma __init___without_namespaces p attrs :
  __init__ (ObjProject p) false attrs
  = inr {| ProvDocument := prov.new_document; project := p;
           samples_entity := None; activities := None;
           add_attributes := attrs |}.
Proof. reflexivity. Qed.

(** Default assembly returns a document exactly when every program has a
    run under [str(len(runs))]. *)
Lemma assemble_returns_iff p :
  (∃ d, assemble p = inr d) ↔ runs_indexed p.
Proof.
  rewrite runs_indexed_missing, assemble_closed.
  destruct (missing_run_in (Project._samples p)); split; try done.
  - by intros [d ?].
  - intros _. by eexists.
Qed.

(** The guard of [_add_activities_namespace] holds on a document without
    namespaces, and only there. *)
Lemma _add_activities_namespace_guard self :
  prov.prefixes (prov.top (ProvDocument (_add_activities_namespace self)))
  = match prov.namespaces (prov.top (ProvDocument self)) with
    | [] => ["activities"]
    | _ => prov.prefixes (prov.top (ProvDocument self))
    end.
Proof.
  unfold _add_activities_namespace.
  by destruct (prov.namespaces (prov.top (ProvDocument self))) eqn:E; cbn;
    rewrite ?E.
Qed.

(** C1 (evaluated on the sample project [demo]): default assembly registers
    the document-level prefixes [project], [samples], [envs] and [users];
    [activities] is not among them, because [_add_activities_namespace]
    runs after two namespaces were registered and its guard asks for
    none. *)
Theorem C1_activities_namespace_not_registered :
  ∃ d, assemble demo = inr d
       ∧ prov.prefixes (prov.top (ProvDocument d))
         = ["project"; "samples"; "envs"; "users"]
       ∧ ("activities" ∉ prov.prefixes (prov.top (ProvDocument d))).
Proof.
  exists (assembled demo). split; [by rewrite assemble_closed|].
  split; [reflexivity|].
  change (prov.prefixes (prov.top (ProvDocument (assembled demo))))
    with ["project"; "samples"; "envs"; "users"].
  by_evaluation.
Qed.

Lemma contiguous_runs_size (runs : gmap string Run.t) (n : nat) :
  dom runs =@{gset string} list_to_set (pretty <$> seq 1 n) →
  size runs = n.
Proof.
  intros Hdom. rewrite <- size_dom, Hdom, size_list_to_set.
  - by rewrite length_fmap, length_seq.
  - apply NoDup_fmap_2; [apply _|apply NoDup_seq].
Qed.

(** C2: take a program whose run keys are exactly [str(1)], ..., [str(n)]
    with [n >= 1], in a project where every program has a run under
    [str(len(runs))].  The program has a run under [str(n)]; the lookup
    [program.runs[str(len(program.runs))]] returns that run; default
    assembly returns a document; in the bundle of the program's sample the
    activity created for the program (the one at the program's position,
    which the program then holds as [ProvActivity]) has the start and end
    times of that run. *)
Theorem C2_last_run_is_run_n p i ks s j kp prog (n : nat) :
  Project._samples p !! i = Some (ks, s) →
  Sample.programs s !! j = Some (kp, prog) →
  (1 ≤ n)%nat →
  dom (Program.runs prog) =@{gset string} list_to_set (pretty <$> seq 1 n) →
  last_runs_present (Project._samples p) →
  ∃ r d b identifier s' prog',
    Program.runs prog !! pretty n = Some r
    ∧ getitem (Program.runs prog) (pretty (size (Program.runs prog))) = inr r
    ∧ assemble p = inr d
    ∧ prov.bundles (ProvDocument d) !! i = Some b
    ∧ bundle_activities b !! j
      = Some (ProvActivity identifier (Run.start_time r) (Run.end_time r))
    ∧ Project._samples (project d) !! i = Some (ks, s')
    ∧ Sample.programs s' !! j = Some (kp, prog')
    ∧ Program.ProvActivity prog'
      = Some (ProvActivity identifier (Run.start_time r) (Run.end_time r)).
Proof.
  intros Hs Hprog Hn Hdom Hruns%last_runs_present_missing.
  assert (is_Some (Program.runs prog !! pretty n)) as [r Hr].
  { apply elem_of_dom. rewrite Hdom, elem_of_list_to_set.
    apply list_elem_of_fmap_2, elem_of_seq. lia. }
  pose proof (contiguous_runs_size _ _ Hdom) as Hsize.
  assert (program_activity (Sample.name s) prog
          = Some (ProvActivity (program_identifier (Sample.name s) prog)
                    (Run.start_time r) (Run.end_time r))) as Hact.
  { unfold program_activity, last_run. by rewrite Hsize, Hr. }
  exists r, (assembled p), (sample_bundle s),
    (program_identifier (Sample.name s) prog),
    (annotated_sample i s), (annotated_program (Sample.name s) prog).
  split; [done|]. split; [unfold getitem; by rewrite Hsize, Hr|].
  split; [by rewrite assemble_closed, Hruns|].
  split; [by eapply assembled_bundle|].
  split.
  { rewrite sample_bundle_activities, <- Hact.
    eapply program_activities_lookup; [|done].
    eapply missing_run_in_None; [done|by eapply list_elem_of_lookup_2]. }
  split; [by apply (annotated_samples_lookup _ 0)|].
  split; [|done].
  cbn [annotated_sample Sample.programs]. by rewrite list_lookup_fmap, Hprog.
Qed.

Lemma C2_last_run_is_run_n_witness :
  ∃ d b identifier s' prog',
    assemble rerun = inr d
    ∧ prov.bundles (ProvDocument d) !! 1 = Some b
    ∧ bundle_activities b !! 1 = Some (ProvActivity identifier 70%Z 85%Z)
    ∧ Project._samples (project d) !! 1 = Some ("S4", s')
    ∧ Sample.programs s' !! 1 = Some ("prokka", prog')
    ∧ Program.ProvActivity prog' = Some (ProvActivity identifier 70%Z 85%Z).
Proof.
  destruct (C2_last_run_is_run_n rerun 1 "S4" S4 1 "prokka" prokka 3)
    as (r & d & b & identifier & s' & prog' & Hr & _ & H).
  - reflexivity.
  - reflexivity.
  - lia.
  - vm_compute. reflexivity.
  - apply last_runs_present_missing. vm_compute. reflexivity.
  - vm_compute in Hr. injection Hr as <-.
    exists d, b, identifier, s', prog'. exact H.
Defined.

(** C3 does not hold: the second sample of [stalled] has a program without
    runs, and default assembly raises an exception whose class is
    [KeyError], not [EmptyRunHistoryError]. *)
Lemma C3_EmptyRunHistoryError_counterexample :
  ¬ (∀ p ks s kp prog,
       (ks, s) ∈ Project._samples p → (kp, prog) ∈ Sample.programs s →
       Program.runs prog = ∅ →
       ∃ e, assemble p = inl e
            ∧ exception_class e = "EmptyRunHistoryError").
Proof.
  intros H.
  destruct (H stalled "S3" S3 "prokka" idle) as (e & He & Hclass).
  - right. left.
  - left.
  - reflexivity.
  - rewrite assemble_closed in He. vm_compute in He.
    injection He as <-. discriminate Hclass.
Qed.

(** C3 as amended: when some sample of the project holds a program without
    runs, default assembly raises and returns no document.  The exception
    is the [KeyError] of the lookup [program.runs[str(len(program.runs))]]
    of a program that has no run under that key; its key is [str(0)] when
    the programs without such a run are the ones without runs. *)
Theorem C3_program_without_runs_raises p ks s kp prog :
  (ks, s) ∈ Project._samples p →
  (kp, prog) ∈ Sample.programs s →
  Program.runs prog = ∅ →
  ∃ key,
    assemble p = inl (KeyError key)
    ∧ (∃ ks' s' kp' prog',
         (ks', s') ∈ Project._samples p ∧ (kp', prog') ∈ Sample.programs s'
         ∧ last_run prog' = None
         ∧ key = pretty (size (Program.runs prog')))
    ∧ ((∀ ks' s' kp' prog',
          (ks', s') ∈ Project._samples p → (kp', prog') ∈ Sample.programs s' →
          last_run prog' = None → Program.runs prog' = ∅) →
       key = "0").
Proof.
  intros Hs Hprog Hruns.
  destruct (missing_run_in (Project._samples p)) as [key|] eqn:E.
  - exists key. split; [by rewrite assemble_closed, E|].
    apply missing_run_in_Some in E as (ks' & s' & Hs' & E).
    apply missing_run_Some in E as (kp' & prog' & Hp' & Hnone & ->).
    split; [by exists ks', s', kp', prog'|].
    intros Hall. by rewrite (Hall _ _ _ _ Hs' Hp' Hnone).
  - apply runs_indexed_missing in E.
    destruct (E _ _ _ _ Hs Hprog) as [r Hr].
    unfold last_run in Hr. by rewrite Hruns in Hr.
Qed.

Lemma C3_program_without_runs_raises_witness :
  ∃ key,
    assemble stalled = inl (KeyError key)
    ∧ (∃ ks' s' kp' prog',
         (ks', s') ∈ Project._samples stalled
         ∧ (kp', prog') ∈ Sample.programs s'
         ∧ last_run prog' = None
         ∧ key = pretty (size (Program.runs prog')))
    ∧ ((∀ ks' s' kp' prog',
          (ks', s') ∈ Project._samples stalled →
          (kp', prog') ∈ Sample.programs s' →
          last_run prog' = None → Program.runs prog' = ∅) →
       key = "0").
Proof.
  apply (C3_program_without_runs_raises stalled "S3" S3 "prokka" idle).
  - right. left.
  - left.
  - reflexivity.
Defined.

(** C4 (evaluated on the sample project [demo]): the bundle of sample [S1]
    holds the activity [S1.programs:prodigal], but its namespaces are
    [S1.files], [reads] and [prodigal]: no namespace with the prefix
    [S1.programs] was opened. *)
Theorem C4_programs_namespace_not_opened :
  ∃ d b, assemble demo = inr d
         ∧ prov.bundles (ProvDocument d) !! 0 = Some b
         ∧ prov.prefixes b = ["S1.files"; "reads"; "prodigal"]
         ∧ ("S1.programs" ∉ prov.prefixes b)
         ∧ (ProvActivity "S1.programs:prodigal" 10%Z 20%Z ∈ prov.records b).
Proof.
  exists (assembled demo), (sample_bundle S1).
  split; [by rewrite assemble_closed|].
  split; [reflexivity|]. split; [reflexivity|].
  change (prov.prefixes (sample_bundle S1))
    with ["S1.files"; "reads"; "prodigal"].
  split; [by_evaluation|].
  change (prov.records (sample_bundle S1))
    with [sample_entity S1; file_entity "S1" reads;
          file_derivation "S1" reads;
          ProvActivity "S1.programs:prodigal" 10%Z 20%Z].
  do 3 right. left.
Qed.



Lemma fmap_snd_prod_map {X B} (h : X → X) (g : X → B)
    (l : list (string * X)) :
  (∀ x, g (h x) = g x) →
  g ∘ snd <$> (prod_map id h <$> l) = g ∘ snd <$> l.
Proof.
  intros Hg. rewrite <- list_fmap_compose. apply list_fmap_ext.
  intros _ [k x] _. cbn. apply Hg.
Qed.

Lemma omap_snd_prod_map {X B} (h : X → X) (g : X → option B)
    (l : list (string * X)) :
  (∀ x, g (h x) = g x) →
  omap (g ∘ snd) (prod_map id h <$> l) = omap (g ∘ snd) l.
Proof.
  intros Hg. induction l as [|[k x] l IH]; [done|].
  cbn. by rewrite Hg, IH.
Qed.

Lemma file_records_identifiers sample_name (fs : list (string * File.t)) :
  omap prov.record_identifier (fs ≫= (file_records sample_name ∘ snd))
  = file_identifier sample_name ∘ snd <$> fs.
Proof. induction fs as [|[k f] fs IH]; [done|]. cbn. by rewrite IH. Qed.

Lemma sample_bundle_node_identifiers s :
  node_identifiers (sample_bundle s)
  = Sample.name s
      :: (file_identifier (Sample.name s) ∘ snd <$> Sample.files s)
      ++ omap prov.record_identifier
           (omap (program_activity (Sample.name s) ∘ snd) (Sample.programs s)).
Proof.
  unfold node_identifiers, sample_bundle; cbn [prov.records].
  cbn [omap list_omap sample_entity prov.record_identifier].
  by rewrite omap_app, file_records_identifiers.
Qed.

Lemma sample_bundle_outline_domain s :
  bundle_outline (sample_bundle (domain_sample s))
  = bundle_outline (sample_bundle s).
Proof.
  unfold bundle_outline.
  rewrite !sample_bundle_node_identifiers, !sample_bundle_relations.
  unfold prov.prefixes, sample_bundle, domain_sample;
    cbn [prov.identifier prov.namespaces Sample.name Sample.files
         Sample.programs].
  rewrite !(fmap_snd_prod_map domain_file) by done.
  rewrite (fmap_snd_prod_map domain_program) by done.
  by rewrite (omap_snd_prod_map domain_program).
Qed.

Lemma missing_run_domain ps :
  missing_run (prod_map id domain_program <$> ps) = missing_run ps.
Proof. induction ps as [|[k p] ps IH]; [done|]. cbn. by rewrite IH. Qed.

Lemma missing_run_in_domain samples :
  missing_run_in (prod_map id domain_sample <$> samples)
  = missing_run_in samples.
Proof.
  induction samples as [|[k s] samples IH]; [done|].
  cbn. by rewrite missing_run_domain, IH.
Qed.

Lemma env_records_no_relation (envs : list (string * Environment.t)) :
  filter (λ r, is_relation r) (envs ≫= env_records) = [].
Proof.
  induction envs as [|e envs IH]; [done|].
  rewrite bind_cons, filter_app, IH. reflexivity.
Qed.

Lemma document_top_relations p : relations (document_top p) = [].
Proof.
  unfold relations, document_top; cbn [prov.records].
  rewrite filter_cons_False by (cbn; auto).
  apply env_records_no_relation.
Qed.

(** What can be read from the result of default assembly depends on the
    domain content of the project only. *)
Lemma result_outline_domain p :
  result_outline (assemble (domain p)) = result_outline (assemble p).
Proof.
  rewrite !assemble_closed.
  change (Project._samples (domain p))
    with (prod_map id domain_sample <$> Project._samples p).
  rewrite missing_run_in_domain.
  destruct (missing_run_in (Project._samples p)); [done|].
  cbn [result_outline]. f_equal. unfold outline.
  assert (bundle_outline (prov.top (ProvDocument (assembled (domain p))))
          = bundle_outline (prov.top (ProvDocument (assembled p)))) as ->.
  { unfold bundle_outline.
    cbn [ProvDocument assembled assembled_document prov.top].
    by rewrite !document_top_relations. }
  f_equal.
  cbn [ProvDocument assembled assembled_document prov.bundles].
  change (Project._samples (domain p))
    with (prod_map id domain_sample <$> Project._samples p).
  rewrite <- !list_fmap_compose. apply list_fmap_ext.
  intros _ [k s] _. apply sample_bundle_outline_domain.
Qed.

Lemma annotated_samples_domain samples : ∀ h,
  prod_map id domain_sample <$> annotated_samples h samples
  = prod_map id domain_sample <$> samples.
Proof.
  induction samples as [|[k s] samples IH]; intros h; [done|].
  cbn [annotated_samples fmap list_fmap]. rewrite IH. f_equal.
  unfold prod_map, domain_sample, annotated_sample; cbn. do 2 f_equal.
  - rewrite <- list_fmap_compose. apply list_fmap_ext. by intros _ [] _.
  - rewrite <- list_fmap_compose. apply list_fmap_ext. by intros _ [] _.
Qed.

Lemma annotated_project_domain p : domain (annotated_project p) = domain p.
Proof.
  unfold domain, annotated_project; cbn.
  by rewrite annotated_samples_domain.
Qed.

(** Assembling once more from the project left by a first assembly reads
    the same. *)
Lemma assemble_again p d :
  assemble p = inr d →
  result_outline (assemble (project d)) = inr (outline d).
Proof.
  intros Hd. pose proof Hd as [-> _]%assemble_inr.
  rewrite <- (result_outline_domain (project (assembled p))).
  cbn [project assembled]. rewrite annotated_project_domain.
  by rewrite result_outline_domain, Hd.
Qed.

(** C6: default assembly is a function of the domain content of the
    project: two projects with the same domain content give the same
    exception, or documents with the same namespace prefixes, the same node
    identifiers and the same relations in the same order, at the document
    level and in every bundle; in particular assembling again from the
    project object left by a first assembly reads the same as the first
    document. *)
Theorem C6_assembly_deterministic p1 p2 :
  domain p1 = domain p2 →
  result_outline (assemble p1) = result_outline (assemble p2)
  ∧ ∀ d, assemble p1 = inr d →
      result_outline (assemble (project d)) = inr (outline d).
Proof.
  intros H. split; [|apply assemble_again].
  by rewrite <- (result_outline_domain p1), H, result_outline_domain.
Qed.

Lemma C6_assembly_deterministic_witness :
  result_outline (assemble demo)
  = result_outline (assemble (annotated_project demo))
  ∧ ∀ d, assemble demo = inr d →
      result_outline (assemble (project d)) = inr (outline d).
Proof.
  apply (C6_assembly_deterministic demo (annotated_project demo)).
  vm_compute. reflexivity.
Defined.




Lemma annotated_sample_annotated h s :
  missing_run (Sample.programs s) = None →
  sample_annotated (annotated_sample h s).
Proof.
  intros Hruns. repeat split; try done; cbn; apply Forall_fmap, Forall_forall.
  - intros [k f] _. by split.
  - intros [k g] Hin. split; [done|]. cbn.
    eapply missing_run_None in Hruns as [r Hr]; [|done].
    unfold program_activity. by rewrite Hr.
Qed.

Lemma annotated_samples_annotated samples : ∀ h,
  missing_run_in samples = None →
  Forall (sample_annotated ∘ snd) (annotated_samples h samples).
Proof.
  induction samples as [|[k s] samples IH]; intros h; cbn; [done|].
  destruct (missing_run (Sample.programs s)) eqn:E; [done|].
  intros H. constructor; [by apply annotated_sample_annotated|by apply IH].
Qed.

(** C8 does not hold: after default assembly of [demo] the project held by
    the document differs from the project passed in. *)
Lemma C8_project_read_only_counterexample :
  ∃ d, assemble demo = inr d ∧ project d ≠ demo.
Proof.
  exists (assembled demo). split; [by rewrite assemble_closed|].
  intros H. by apply (f_equal Project.namespace) in H.
Qed.

(** C8 as amended: default assembly leaves the domain content of the
    project as it was (tag, maps, names, paths, metadata, runs), and assigns
    the attributes [namespace] and [entity] of the project, [ProvBundle] and
    [ProvEntity] of every sample, [namespace] and [ProvEntity] of every
    file, [namespace] and [ProvActivity] of every program. *)
Theorem C8_domain_content_unchanged p d :
  assemble p = inr d →
  domain (project d) = domain p ∧ project_annotated (project d).
Proof.
  intros [-> Hruns]%assemble_inr. split.
  - apply annotated_project_domain.
  - repeat split; try done. by apply annotated_samples_annotated.
Qed.

Lemma C8_domain_content_unchanged_witness :
  domain (project (assembled demo)) = domain demo
  ∧ project_annotated (project (assembled demo)).
Proof.
  apply (C8_domain_content_unchanged demo (assembled demo)).
  vm_compute. reflexivity.
Defined.











(** C10: in an assembled document the document level holds no relation,
    and every relation of a bundle is the derivation of the entity of a
    file of some sample from the entity of that sample; the relation pass
    [_add_relationships] leaves the document as it is. *)
Theorem C10_only_derivations p d :
  assemble p = inr d →
  relations (prov.top (ProvDocument d)) = []
  ∧ (∀ b r, b ∈ prov.bundles (ProvDocument d) → r ∈ relations b →
       ∃ ks s kf f,
         (ks, s) ∈ Project._samples p ∧ (kf, f) ∈ Sample.files s
         ∧ r = ProvRelation Derivation
                 (prov.qname (file_entity (Sample.name s) f))
                 (prov.qname (sample_entity s)))
  ∧ _add_relationships d = d.
Proof.
  intros [-> _]%assemble_inr. split; [apply document_top_relations|].
  split; [|done].
  intros b r Hb Hr. cbn in Hb.
  apply list_elem_of_fmap in Hb as ([ks s] & -> & Hs).
  cbn [compose snd] in Hr. rewrite sample_bundle_relations in Hr.
  apply list_elem_of_fmap in Hr as ([kf f] & -> & Hf).
  by exists ks, s, kf, f.
Qed.

Lemma C10_only_derivations_witness :
  relations (prov.top (ProvDocument (assembled demo))) = []
  ∧ (∀ b r, b ∈ prov.bundles (ProvDocument (assembled demo)) →
       r ∈ relations b →
       ∃ ks s kf f,
         (ks, s) ∈ Project._samples demo ∧ (kf, f) ∈ Sample.files s
         ∧ r = ProvRelation Derivation
                 (prov.qname (file_entity (Sample.name s) f))
                 (prov.qname (sample_entity s)))
  ∧ _add_relationships (assembled demo) = assembled demo.
Proof.
  apply (C10_only_derivations demo (assembled demo)).
  vm_compute. reflexivity.
Defined.

(** ** Further properties of the assembler *)

(** The bundles follow the samples: an assembled document has one bundle
    per sample, in sample order, named [samples:<sample>] and with the
    sample's name as default namespace. *)
Theorem bundles_follow_samples p d :
  assemble p = inr d →
  length (prov.bundles (ProvDocument d)) = length (Project._samples p)
  ∧ ∀ i ks s, Project._samples p !! i = Some (ks, s) →
      ∃ b, prov.bundles (ProvDocument d) !! i = Some b
           ∧ prov.identifier b = Some ("samples:" +:+ Sample.name s)
           ∧ prov.default_namespace b = Some (Sample.name s).
Proof.
  intros [-> _]%assemble_inr. split.
  - cbn. by rewrite length_fmap.
  - intros i ks s Hs. exists (sample_bundle s).
    split; [by eapply assembled_bundle|done].
Qed.

Lemma bundles_follow_samples_witness :
  length (prov.bundles (ProvDocument (assembled demo)))
  = length (Project._samples demo)
  ∧ ∀ i ks s, Project._samples demo !! i = Some (ks, s) →
      ∃ b, prov.bundles (ProvDocument (assembled demo)) !! i = Some b
           ∧ prov.identifier b = Some ("samples:" +:+ Sample.name s)
           ∧ prov.default_namespace b = Some (Sample.name s).
Proof.
  apply (bundles_follow_samples demo (assembled demo)).
  vm_compute. reflexivity.
Defined.

(** The attributes assigned to the domain objects point into the
    document: after assembly the sample at position [i] holds the handle of
    bundle [i], its [ProvEntity] is the first record of that bundle and is
    named after the sample, and the [ProvEntity] of each of its files and
    the [ProvActivity] of each of its programs are records of that
    bundle. *)
Theorem back_references_point_into_bundle p d i ks s :
  assemble p = inr d →
  Project._samples p !! i = Some (ks, s) →
  ∃ s' b,
    Project._samples (project d) !! i = Some (ks, s')
    ∧ prov.bundles (ProvDocument d) !! i = Some b
    ∧ Sample.ProvBundle s' = Some i
    ∧ (∃ e, Sample.ProvEntity s' = Some e
            ∧ prov.records b !! 0 = Some e
            ∧ prov.record_identifier e = Some (Sample.name s))
    ∧ Forall (λ kf : string * File.t,
                ∃ r, File.ProvEntity kf.2 = Some r ∧ r ∈ prov.records b)
        (Sample.files s')
    ∧ Forall (λ kp : string * Program.t,
                ∃ r, Program.ProvActivity kp.2 = Some r ∧ r ∈ prov.records b)
        (Sample.programs s').
Proof.
  intros [-> Hruns]%assemble_inr Hs.
  exists (annotated_sample i s), (sample_bundle s).
  split; [by apply (annotated_samples_lookup _ 0)|].
  split; [by eapply assembled_bundle|].
  split; [done|]. split; [by exists (sample_entity s)|].
  cbn [annotated_sample Sample.files Sample.programs sample_bundle
       prov.records].
  split; apply Forall_fmap, Forall_forall.
  - intros [kf f] Hf. exists (file_entity (Sample.name s) f).
    split; [done|]. right. apply elem_of_app; left.
    apply list_elem_of_bind. exists (kf, f). split; [left|done].
  - intros [kp g] Hg. cbn.
    eapply missing_run_in_None in Hruns;
      [|by eapply list_elem_of_lookup_2].
    eapply missing_run_None in Hruns as [r Hr]; [|done].
    exists (ProvActivity (program_identifier (Sample.name s) g)
              (Run.start_time r) (Run.end_time r)).
    assert (program_activity (Sample.name s) g
            = Some (ProvActivity (program_identifier (Sample.name s) g)
                      (Run.start_time r) (Run.end_time r))) as Hact.
    { unfold program_activity. by rewrite Hr. }
    split; [done|]. right. apply elem_of_app; right.
    apply list_elem_of_omap. by exists (kp, g).
Qed.

Lemma back_references_point_into_bundle_witness :
  ∃ s' b,
    Project._samples (project (assembled demo)) !! 0 = Some ("S1", s')
    ∧ prov.bundles (ProvDocument (assembled demo)) !! 0 = Some b
    ∧ Sample.ProvBundle s' = Some 0
    ∧ (∃ e, Sample.ProvEntity s' = Some e
            ∧ prov.records b !! 0 = Some e
            ∧ prov.record_identifier e = Some (Sample.name S1))
    ∧ Forall (λ kf : string * File.t,
                ∃ r, File.ProvEntity kf.2 = Some r ∧ r ∈ prov.records b)
        (Sample.files s')
    ∧ Forall (λ kp : string * Program.t,
                ∃ r, Program.ProvActivity kp.2 = Some r ∧ r ∈ prov.records b)
        (Sample.programs s').
Proof.
  apply (back_references_point_into_bundle demo (assembled demo) 0 "S1" S1).
  - vm_compute. reflexivity.
  - reflexivity.
Defined.

(** Relations have both ends in their bundle: in an assembled document the
    source and the target of every relation of a bundle are identifiers of
    nodes of that same bundle. *)
Theorem relations_have_both_ends p d b kind source target :
  assemble p = inr d →
  b ∈ prov.bundles (ProvDocument d) →
  ProvRelation kind source target ∈ prov.records b →
  source ∈ node_identifiers b ∧ target ∈ node_identifiers b.
Proof.
  intros [-> _]%assemble_inr Hb Hr.
  cbn in Hb. apply list_elem_of_fmap in Hb as ([ks s] & -> & _).
  cbn [compose snd] in *.
  assert (ProvRelation kind source target ∈ relations (sample_bundle s))
    as Hrel by (by apply list_elem_of_filter).
  rewrite sample_bundle_relations in Hrel.
  apply list_elem_of_fmap in Hrel as ([kf f] & [= -> -> ->] & Hf).
  rewrite sample_bundle_node_identifiers. split.
  - right. apply elem_of_app; left.
    by apply (list_elem_of_fmap_2 (file_identifier _ ∘ snd) _ (kf, f)).
  - left.
Qed.

Lemma relations_have_both_ends_witness :
  "S1.files:reads" ∈ node_identifiers (sample_bundle S1)
  ∧ "S1" ∈ node_identifiers (sample_bundle S1).
Proof.
  apply (relations_have_both_ends demo (assembled demo) (sample_bundle S1)
           Derivation "S1.files:reads" "S1").
  - vm_compute. reflexivity.
  - left.
  - do 2 right. left.
Defined.

(** One activity per program: in an assembled document the activities of a
    sample's bundle are as many as the sample's programs, and the activity
    at the position of a program carries the times of the run the program
    stores under [str(len(runs))], whatever the other keys of its run map
    are: the run is chosen by the number of runs, not by the highest
    key. *)
Theorem one_activity_per_program p d i ks s j kp g :
  assemble p = inr d →
  Project._samples p !! i = Some (ks, s) →
  Sample.programs s !! j = Some (kp, g) →
  ∃ b r identifier,
    prov.bundles (ProvDocument d) !! i = Some b
    ∧ length (bundle_activities b) = length (Sample.programs s)
    ∧ Program.runs g !! pretty (size (Program.runs g)) = Some r
    ∧ bundle_activities b !! j
      = Some (ProvActivity identifier (Run.start_time r) (Run.end_time r)).
Proof.
  intros [-> Hruns]%assemble_inr Hs Hg.
  eapply missing_run_in_None in Hruns; [|by eapply list_elem_of_lookup_2].
  pose proof Hruns as Hall.
  eapply missing_run_None in Hall as [r Hr];
    [|by eapply list_elem_of_lookup_2].
  exists (sample_bundle s), r, (program_identifier (Sample.name s) g).
  split; [by eapply assembled_bundle|].
  rewrite sample_bundle_activities.
  split; [by apply program_activities_length|]. split; [done|].
  rewrite (program_activities_lookup (Sample.name s) _ _ _ _ Hruns Hg).
  unfold program_activity. by rewrite Hr.
Qed.

Lemma one_activity_per_program_witness :
  ∃ b identifier,
    prov.bundles (ProvDocument (assembled gappy)) !! 0 = Some b
    ∧ length (bundle_activities b) = 2
    ∧ Program.runs resumed !! "7" = Some {| Run.start_time := 90%Z;
                                            Run.end_time := 95%Z;
                                            Run.status := 0%Z;
                                            Run.user := "alice" |}
    ∧ bundle_activities b !! 1 = Some (ProvActivity identifier 11%Z 12%Z).
Proof.
  destruct (one_activity_per_program gappy (assembled gappy) 0 "S5" S5
              1 "cog" resumed)
    as (b & r & identifier & Hb & Hlen & Hr & Hact).
  - vm_compute. reflexivity.
  - reflexivity.
  - reflexivity.
  - vm_compute in Hr. injection Hr as <-.
    exists b, identifier. split; [exact Hb|]. split; [exact Hlen|].
    split; [vm_compute; reflexivity|exact Hact].
Defined.

Lemma missing_run_app ps1 ps2 :
  missing_run ps1 = None → missing_run (ps1 ++ ps2) = missing_run ps2.
Proof.
  induction ps1 as [|[k g] ps1 IH]; [done|]. cbn.
  by destruct (last_run g).
Qed.

Lemma missing_run_in_app samples1 samples2 :
  missing_run_in samples1 = None →
  missing_run_in (samples1 ++ samples2) = missing_run_in samples2.
Proof.
  induction samples1 as [|[k s] samples1 IH]; [done|]. cbn.
  by destruct (missing_run (Sample.programs s)).
Qed.

Lemma missing_run_Forall ps :
  Forall (λ kp : string * Program.t,
            is_Some (Program.runs kp.2 !! pretty (size (Program.runs kp.2))))
    ps
  ↔ missing_run ps = None.
Proof.
  rewrite missing_run_None, Forall_forall. split.
  - intros H k g Hg. apply (H _ Hg).
  - intros H [k g] Hg. by apply (H k).
Qed.

(** The first missing run is the one reported: when the samples before
    [s] and the programs of [s] before [g] all have a run under
    [str(len(runs))] and [g] has none, default assembly raises
    [KeyError(str(len(g.runs)))], whatever comes after. *)
Theorem first_missing_run_is_raised p before ks s after
    programs_before kp g programs_after :
  Project._samples p = before ++ (ks, s) :: after →
  last_runs_present before →
  Sample.programs s = programs_before ++ (kp, g) :: programs_after →
  Forall (λ kp : string * Program.t,
            is_Some (Program.runs kp.2 !! pretty (size (Program.runs kp.2))))
    programs_before →
  Program.runs g !! pretty (size (Program.runs g)) = None →
  assemble p = inl (KeyError (pretty (size (Program.runs g)))).
Proof.
  intros Hsamples Hbefore%last_runs_present_missing Hprograms
    Hpb%missing_run_Forall Hnone.
  rewrite assemble_closed, Hsamples, missing_run_in_app by done.
  cbn [missing_run_in].
  rewrite Hprograms, missing_run_app by done. cbn [missing_run].
  unfold last_run. by rewrite Hnone.
Qed.

Lemma first_missing_run_is_raised_witness :
  assemble stalled = inl (KeyError (pretty (size (Program.runs idle)))).
Proof.
  apply (first_missing_run_is_raised stalled [("S1", S1)] "S3" S3 []
           [] "prokka" idle []).
  - reflexivity.
  - apply last_runs_present_missing. reflexivity.
  - reflexivity.
  - constructor.
  - reflexivity.
Defined.

(** A bundle depends on its sample only: two projects that hold the same
    sample get the same bundle for it, wherever the sample stands and
    whatever else the projects hold. *)
Theorem bundle_depends_on_its_sample p1 p2 d1 d2 i1 i2 k1 k2 s :
  assemble p1 = inr d1 →
  assemble p2 = inr d2 →
  Project._samples p1 !! i1 = Some (k1, s) →
  Project._samples p2 !! i2 = Some (k2, s) →
  is_Some (prov.bundles (ProvDocument d1) !! i1)
  ∧ prov.bundles (ProvDocument d1) !! i1
    = prov.bundles (ProvDocument d2) !! i2.
Proof.
  intros [-> _]%assemble_inr [-> _]%assemble_inr H1 H2.
  rewrite (assembled_bundle _ _ _ _ H1), (assembled_bundle _ _ _ _ H2).
  by split.
Qed.

Lemma bundle_depends_on_its_sample_witness :
  is_Some (prov.bundles (ProvDocument (assembled demo)) !! 0)
  ∧ prov.bundles (ProvDocument (assembled demo)) !! 0
    = prov.bundles
        (ProvDocument
           (assembled (Project.set_samples [("S2", S2); ("other", S1)] twins)))
        !! 1.
Proof.
  apply (bundle_depends_on_its_sample demo
           (Project.set_samples [("S2", S2); ("other", S1)] twins)
           (assembled demo)
           (assembled (Project.set_samples [("S2", S2); ("other", S1)] twins))
           0 1 "S1" "other" S1).
  - vm_compute. reflexivity.
  - vm_compute. reflexivity.
  - reflexivity.
  - reflexivity.
Defined.

Lemma envs_loop_namespaces flag envs : ∀ doc,
  prov.namespaces (prov.top (foldl (add_env_and_user flag) doc envs))
  = prov.namespaces (prov.top doc)
  ∧ prov.bundles (foldl (add_env_and_user flag) doc envs) = prov.bundles doc.
Proof.
  induction envs as [|[u e] envs IH]; intros doc; [done|].
  cbn [foldl]. destruct (IH (add_env_and_user flag doc (u, e))) as [-> ->].
  by destruct flag.
Qed.

(** [_add_activities_namespace] registers [activities] on the document the
    constructor starts from, and changes nothing once any of the other
    namespace methods has run. *)
Theorem activities_namespace_needs_empty_document self p flag :
  prov.prefixes
    (prov.top
       (ProvDocument
          (_add_activities_namespace
             {| ProvDocument := prov.new_document; project := p;
                samples_entity := None; activities := None;
                add_attributes := flag |})))
  = ["activities"]
  ∧ _add_activities_namespace (_add_project_namespace self)
    = _add_project_namespace self
  ∧ _add_activities_namespace (_add_samples_namespace self)
    = _add_samples_namespace self
  ∧ _add_activities_namespace (_add_env_and_user_namespace self)
    = _add_env_and_user_namespace self.
Proof.
  split; [reflexivity|].
  assert (∀ x : BioProvDocument,
            prov.namespaces (prov.top (ProvDocument x)) ≠ [] →
            _add_activities_namespace x = x) as Hnoop.
  { intros x Hx. unfold _add_activities_namespace.
    by destruct (prov.namespaces (prov.top (ProvDocument x))). }
  repeat split; apply Hnoop.
  - unfold _add_project_namespace. destruct (add_attributes self); cbn;
      by destruct (prov.namespaces (prov.top (ProvDocument self))).
  - cbn. by destruct (prov.namespaces (prov.top (ProvDocument self))).
  - unfold _add_env_and_user_namespace.
    cbn [prov.on_document prov.add_namespace ProvDocument set_ProvDocument].
    rewrite (proj1 (envs_loop_namespaces _ _ _)). cbn.
    by destruct (prov.namespaces (prov.top (ProvDocument self))).
Qed.

(** The nodes of the document level of an assembled document, for every
    project: the project entity, then per entry of [project.envs] the
    entity [envs:<env>] and the agent [users:<user>], in that order, and
    nothing else; no node of a file or of a program stands at the document
    level. *)
Theorem document_level_content p d :
  assemble p = inr d →
  node_identifiers (prov.top (ProvDocument d))
  = ("project:" +:+ Project.__str__ p)
    :: (Project.envs p
          ≫= λ item, ["envs:" +:+ Environment.__str__ item.2;
                      "users:" +:+ item.1])
  ∧ length (prov.records (prov.top (ProvDocument d)))
    = S (2 * length (Project.envs p)).
Proof.
  intros [-> _]%assemble_inr.
  cbn [assembled ProvDocument assembled_document prov.top].
  unfold node_identifiers, document_top; cbn [prov.records].
  cbn [omap list_omap project_entity prov.record_identifier length].
  induction (Project.envs p) as [|[u e] envs [IH1 IH2]]; [done|].
  cbn in *. split; [|lia]. do 3 f_equal. by injection IH1.
Qed.

Lemma document_level_content_witness :
  node_identifiers (prov.top (ProvDocument (assembled lab)))
  = ("project:" +:+ Project.__str__ lab)
    :: (Project.envs lab
          ≫= λ item, ["envs:" +:+ Environment.__str__ item.2;
                      "users:" +:+ item.1])
  ∧ length (prov.records (prov.top (ProvDocument (assembled lab))))
    = S (2 * length (Project.envs lab)).
Proof.
  apply (document_level_content lab (assembled lab)).
  vm_compute. reflexivity.
Defined.

Lemma envs_loop_plain bs1 bs envs : ∀ t t1,
  prov.namespaces t = prov.namespaces t1 →
  prov.identifier t = prov.identifier t1 →
  prov.default_namespace t = prov.default_namespace t1 →
  prov.records t = without_attributes <$> prov.records t1 →
  ∃ t' t1',
    foldl (add_env_and_user false)
      {| prov.top := t; prov.bundles := bs |} envs
    = {| prov.top := t'; prov.bundles := bs |}
    ∧ foldl (add_env_and_user true)
        {| prov.top := t1; prov.bundles := bs1 |} envs
      = {| prov.top := t1'; prov.bundles := bs1 |}
    ∧ prov.namespaces t' = prov.namespaces t1'
    ∧ prov.identifier t' = prov.identifier t1'
    ∧ prov.default_namespace t' = prov.default_namespace t1'
    ∧ prov.records t' = without_attributes <$> prov.records t1'.
Proof.
  induction envs as [|[u e] envs IH]; intros t t1 Hn Hi Hd Hr; cbn [foldl].
  - by exists t, t1.
  - cbn [add_env_and_user prov.on_document prov.top prov.bundles
         prov.entity prov.agent].
    apply IH; cbn; try done.
    by rewrite !fmap_app, Hr.
Qed.

(** With [add_attributes=False] the constructor returns whenever it
    returns by default, and what it builds differs only at the document
    level, where the entities of the project and of the environments carry
    no attributes: the bundles, with their namespaces and the attributes of
    their file entities, and the attributes assigned to the samples are
    the same, since [_iter_samples] does not consult the flag. *)
Theorem add_attributes_only_strips_document_level p d :
  assemble p = inr d →
  ∃ d', __init__ (ObjProject p) true false = inr d'
        ∧ prov.bundles (ProvDocument d') = prov.bundles (ProvDocument d)
        ∧ prov.records (prov.top (ProvDocument d'))
          = without_attributes <$> prov.records (prov.top (ProvDocument d))
        ∧ Project._samples (project d') = Project._samples (project d).
Proof.
  unfold assemble, __init__, _add_project_namespaces, _iter_samples.
  unfold _add_env_and_user_namespace, _add_activities_namespace,
    _add_samples_namespace, _add_project_namespace.
  cbn [ProvDocument project add_attributes set_ProvDocument set_project
       prov.new_document prov.on_document prov.top prov.bundles
       prov.add_namespace prov.entity prov.new_bundle prov.namespaces
       prov.add_record prov.records prov.identifier prov.default_namespace
       app length Nat.eqb Project.set_namespace Project.set_entity
       Project.__str__ Project.tag Project.envs Project.items
       Project._samples].
  edestruct (envs_loop_plain [] [] (Project.envs p))
    as (t' & t1' & -> & -> & Hn & Hi & Hd & Hr);
    [| | | |rewrite !samples_loop];
    [reflexivity..|].
  destruct (missing_run_in (Project._samples p)); [done|].
  cbn. intros [= <-]. eexists. split; [reflexivity|]. by cbn.
Qed.

Lemma add_attributes_only_strips_document_level_witness :
  ∃ d', __init__ (ObjProject lab) true false = inr d'
        ∧ prov.bundles (ProvDocument d')
          = prov.bundles (ProvDocument (assembled lab))
        ∧ prov.records (prov.top (ProvDocument d'))
          = without_attributes
              <$> prov.records (prov.top (ProvDocument (assembled lab)))
        ∧ Project._samples (project d')
          = Project._samples (project (assembled lab)).
Proof.
  apply (add_attributes_only_strips_document_level lab (assembled lab)).
  vm_compute. reflexivity.
Defined.

(** ** Properties of the workflow *)

Lemma Outcome_bind_inr {A B} (m : Workflow.Outcome A)
    (k : A → Workflow.Outcome B) b :
  m ≫= k = inr b → ∃ a, m = inr a ∧ k a = inr b.
Proof. destruct m as [e|a]; [done|]. intros H. by exists a. Qed.

Lemma assert_inr cond msg u :
  Workflow.assert_ cond msg = inr u → cond = true.
Proof. by destruct cond. Qed.

Lemma load_dataframe_input_file (W : Workflow.World)
    (self self' : Workflow.t W) sampleset :
  Workflow._load_dataframe_input self = inr (sampleset, self') →
  ∃ path, Workflow.input self = Some path
          ∧ Workflow.isfile W path = true
          ∧ Workflow.input self' = Some path.
Proof.
  unfold Workflow._load_dataframe_input.
  intros (path & Hpath & H)%Outcome_bind_inr.
  apply Outcome_bind_inr in H as (? & Hfile%assert_inr & H).
  apply Outcome_bind_inr in H as (df & _ & H).
  apply Outcome_bind_inr in H as (? & _ & H).
  assert (Workflow.input self = Some path) as Hinput.
  { destruct (Workflow.input self); [|done]. by injection Hpath as ->. }
  exists path. split; [done|]. split; [done|].
  destruct (Workflow.file_columns self);
    apply Outcome_bind_inr in H as (rows & _ & H);
    apply Outcome_bind_inr in H as (? & _ & H);
    by apply Outcome_bind_inr in H as (ss & _ & [= <- <-]).
Qed.

(** With [file_extensions] left at [None], [_load_directory_input] never
    returns: it raises the [AssertionError] of its check when the input is
    not a directory, and a [TypeError] at the loop over the extensions when
    it is. *)
Theorem directory_loader_needs_extensions (W : Workflow.World)
    (self : Workflow.t W) directory :
  Workflow.input self = Some directory →
  Workflow.file_extensions self = Workflow.ColNone →
  Workflow._load_directory_input self
  = inl (if Workflow.isdir W directory
         then Workflow.TypeError "'NoneType' object is not iterable"
         else Workflow.Builtin
                (AssertionError
                   ("Input directory '" +:+ directory +:+ "' not found."))).
Proof.
  intros Hinput Hext. unfold Workflow._load_directory_input.
  rewrite Hinput, Hext. cbn.
  by destruct (Workflow.isdir W directory).
Qed.

Lemma directory_loader_needs_extensions_witness :
  Workflow._load_directory_input (Workflow.small_workflow (Some "data"))
  = inl (if Workflow.isdir Workflow.small_world "data"
         then Workflow.TypeError "'NoneType' object is not iterable"
         else Workflow.Builtin
                (AssertionError
                   ("Input directory '" +:+ "data" +:+ "' not found."))).
Proof.
  apply (directory_loader_needs_extensions Workflow.small_world
           (Workflow.small_workflow (Some "data")) "data").
  - reflexivity.
  - reflexivity.
Defined.

Lemma small_world_exclusive path :
  Workflow.isfile Workflow.small_world path = true →
  Workflow.isdir Workflow.small_world path = false.
Proof.
  cbn. intros H%bool_decide_eq_true. apply bool_decide_eq_false.
  intros ->. by destruct H as [H|[H|H]].
Qed.

Lemma load_directory_after_dataframe (W : Workflow.World)
    (self self' : Workflow.t W) sampleset :
  (∀ path, Workflow.isfile W path = true → Workflow.isdir W path = false) →
  Workflow._load_dataframe_input self = inr (sampleset, self') →
  ∃ path,
    Workflow.input self = Some path
    ∧ Workflow.isfile W path = true
    ∧ Workflow._load_directory_input self'
      = inl (Workflow.Builtin
               (AssertionError
                  ("Input directory '" +:+ path +:+ "' not found."))).
Proof.
  intros Hexcl (path & Hinput & Hfile & Hinput')%load_dataframe_input_file.
  exists path. split; [done|]. split; [done|].
  unfold Workflow._load_directory_input. rewrite Hinput'. cbn.
  by rewrite (Hexcl _ Hfile).
Qed.

Lemma generate_sampleset_raises (W : Workflow.World) (self : Workflow.t W) :
  (∀ path, Workflow.isfile W path = true → Workflow.isdir W path = false) →
  ∃ e, Workflow.generate_sampleset self = inl e.
Proof.
  intros Hexcl. unfold Workflow.generate_sampleset.
  destruct (Workflow._load_dataframe_input self) as [e|[ss self']] eqn:E;
    [by exists e|].
  destruct (load_directory_after_dataframe _ _ _ _ Hexcl E)
    as (path & _ & _ & Hdir).
  eexists. cbn. by rewrite Hdir.
Qed.

(** [generate_sampleset] never returns a sample set: it runs both loaders
    on the same input, and a path is not both a file and a directory.
    Either the dataframe loader raises, or the input is a file and the
    directory loader raises the [AssertionError] of its directory check;
    [self.input_type] plays no part. *)
Theorem generate_sampleset_never_returns (W : Workflow.World)
    (self : Workflow.t W) :
  (∀ path, Workflow.isfile W path = true → Workflow.isdir W path = false) →
  ∃ e, Workflow.generate_sampleset self = inl e
       ∧ (Workflow._load_dataframe_input self = inl e
          ∨ ∃ path,
              Workflow.input self = Some path
              ∧ Workflow.isfile W path = true
              ∧ e = Workflow.Builtin
                      (AssertionError
                         ("Input directory '" +:+ path +:+ "' not found."))).
Proof.
  intros Hexcl. unfold Workflow.generate_sampleset.
  destruct (Workflow._load_dataframe_input self) as [e|[ss self']] eqn:E.
  - exists e. split; [done|by left].
  - destruct (load_directory_after_dataframe _ _ _ _ Hexcl E)
      as (path & Hinput & Hfile & Hdir).
    eexists. split; [cbn; by rewrite Hdir|].
    right. by exists path.
Qed.

Lemma generate_sampleset_never_returns_witness :
  ∃ e, Workflow.generate_sampleset
         (Workflow.small_workflow (Some "samples.tsv")) = inl e
       ∧ (Workflow._load_dataframe_input
            (Workflow.small_workflow (Some "samples.tsv")) = inl e
          ∨ ∃ path,
              Workflow.input (Workflow.small_workflow (Some "samples.tsv"))
              = Some path
              ∧ Workflow.isfile Workflow.small_world path = true
              ∧ e = Workflow.Builtin
                      (AssertionError
                         ("Input directory '" +:+ path +:+ "' not found."))).
Proof.
  apply (generate_sampleset_never_returns Workflow.small_world
           (Workflow.small_workflow (Some "samples.tsv"))).
  exact small_world_exclusive.
Defined.

(** The constructor returns only for a workflow without input and without
    one of name, description and steps: with an input it raises in
    [generate_sampleset], and with name, description and steps all given
    it raises in [generate_parser], whose last call is [add_argument()]
    without flags.  The workflow it returns has the attributes it was
    given, except that [parser], [sampleset] and [success] are reset:
    the parser passed in is dropped. *)
Theorem constructor_returns_only_without_input (W : Workflow.World)
    (self w : Workflow.t W) :
  (∀ path, Workflow.isfile W path = true → Workflow.isdir W path = false) →
  (∀ help parser, ∃ e, Workflow.add_argument W [] help parser = inl e) →
  Workflow.__init__ self = inr w →
  Workflow.input self = None
  ∧ (Workflow.name self = None ∨ Workflow.description self = None
     ∨ Workflow.steps self = None)
  ∧ w = {| Workflow.name := Workflow.name self;
           Workflow.description := Workflow.description self;
           Workflow.input := Workflow.input self;
           Workflow.input_type := Workflow.input_type self;
           Workflow.index_col := Workflow.index_col self;
           Workflow.file_columns := Workflow.file_columns self;
           Workflow.file_extensions := Workflow.file_extensions self;
           Workflow.steps := Workflow.steps self;
           Workflow.parser := None;
           Workflow.tag := Workflow.tag self;
           Workflow.verbose := Workflow.verbose self;
           Workflow.threads := Workflow.threads self;
           Workflow.sep := Workflow.sep self;
           Workflow.success := 0%Z;
           Workflow.kwargs := Workflow.kwargs self;
           Workflow.sampleset := None |}.
Proof.
  intros Hexcl Hargparse. unfold Workflow.__init__.
  set (self0 := @Workflow.Build_t W _ _ _ _ _ _ _ _ None _ _ _ _ _ _ None).
  destruct (Workflow.input self) as [path|] eqn:Hinput.
  - assert (Workflow.input self0 = Some path) as -> by done.
    destruct (generate_sampleset_raises W self0 Hexcl) as (e & ->).
    done.
  - assert (Workflow.input self0 = None) as -> by done.
    cbn [mbind Workflow.Outcome_bind mret Workflow.Outcome_ret].
    case_bool_decide as Hall.
    + unfold Workflow.generate_parser.
      intros (parser & Hparser & _)%Outcome_bind_inr.
      apply Outcome_bind_inr in Hparser as (parser1 & _ & Hparser).
      apply Outcome_bind_inr in Hparser as (parser2 & Hlast & _).
      destruct (Hargparse None parser1) as [e He]. congruence.
    + intros [= <-]. split; [done|]. split; [|done].
      destruct (Workflow.name self) eqn:Hn; [|by left].
      destruct (Workflow.description self) eqn:Hd; [|by right; left].
      destruct (Workflow.steps self) eqn:Hs; [|by right; right].
      destruct Hall. subst self0. cbn. rewrite ?Hn, ?Hd, ?Hs. by repeat split.
Qed.

Lemma small_world_add_argument help parser :
  ∃ e, Workflow.add_argument Workflow.small_world [] help parser = inl e.
Proof. by eexists. Qed.

Lemma constructor_returns_only_without_input_witness :
  Workflow.input workflow_with_parser = None
  ∧ (Workflow.name workflow_with_parser = None
     ∨ Workflow.description workflow_with_parser = None
     ∨ Workflow.steps workflow_with_parser = None)
  ∧ Workflow.small_workflow None
    = {| Workflow.name := None; Workflow.description := None;
         Workflow.input := None; Workflow.input_type := "dataframe";
         Workflow.index_col := "sample-id";
         Workflow.file_columns := Workflow.ColStr "assembly";
         Workflow.file_extensions := Workflow.ColNone;
         Workflow.steps := None; Workflow.parser := None;
         Workflow.tag := None; Workflow.verbose := None;
         Workflow.threads := None;
         Workflow.sep := Workflow.sep (Workflow.small_workflow None);
         Workflow.success := 0%Z; Workflow.kwargs := [];
         Workflow.sampleset := None |}.
Proof.
  apply (constructor_returns_only_without_input Workflow.small_world
           workflow_with_parser
           (Workflow.small_workflow None)).
  - exact small_world_exclusive.
  - exact small_world_add_argument.
  - vm_compute. reflexivity.
Defined.

Lemma glob_extensions_concat (W : Workflow.World) directory exts : ∀ files,
  Workflow.glob_extensions (W := W) directory files exts
  = files
    ++ mjoin ((λ ext, Workflow.glob W
                        (Workflow.path_join W directory ("*." +:+ ext)))
                <$> exts).
Proof.
  induction exts as [|ext exts IH]; intros files; cbn.
  - by rewrite app_nil_r.
  - by rewrite IH, <- app_assoc.
Qed.

(** When [_load_directory_input] returns, the input is a directory,
    [self.file_extensions] is a tuple (a [str] was wrapped into one), and
    the sample set is what [from_df] gives for the table of the files
    matching [<directory>/*.<ext>], extension after extension in the order
    of the tuple; [self.file_columns] is passed on as it is. *)
Theorem directory_loader_globs_each_extension (W : Workflow.World)
    (self self' : Workflow.t W) sampleset :
  Workflow._load_directory_input self = inr (sampleset, self') →
  ∃ directory exts df1 df2,
    Workflow.input self = Some directory
    ∧ Workflow.isdir W directory = true
    ∧ self' = match Workflow.file_extensions self with
              | Workflow.ColStr s =>
                  Workflow.set_file_extensions (Workflow.ColTuple [s]) self
              | _ => self
              end
    ∧ Workflow.file_extensions self' = Workflow.ColTuple exts
    ∧ Workflow.set_columns W
        (Workflow.frame_of_files W
           (mjoin ((λ ext, Workflow.glob W
                             (Workflow.path_join W directory
                                ("*." +:+ ext)))
                     <$> exts)))
        (Workflow.file_columns self) = inr df1
    ∧ Workflow.add_sample_id W df1 (Workflow.file_columns self) = inr df2
    ∧ Workflow.announce_loading W df2 = inr tt
    ∧ Workflow.from_df W df2 (Workflow.index_col self)
        (Workflow.file_columns self) (Workflow.tag self) = inr sampleset.
Proof.
  unfold Workflow._load_directory_input.
  intros (directory & Hpath & H)%Outcome_bind_inr.
  apply Outcome_bind_inr in H as (? & Hdir%assert_inr & H).
  assert (Workflow.input self = Some directory) as Hinput.
  { destruct (Workflow.input self); [|done]. by injection Hpath as ->. }
  exists directory.
  destruct (Workflow.file_extensions self) as [|s|items] eqn:E;
    apply Outcome_bind_inr in H as (exts & Hexts & H);
    [done|injection Hexts as <-..];
    rewrite glob_extensions_concat in H; cbn [app] in H;
    apply Outcome_bind_inr in H as (df1 & Hdf1 & H);
    apply Outcome_bind_inr in H as (df2 & Hdf2 & H);
    apply Outcome_bind_inr in H as (ss & Hss & [= <- <-]);
    unfold Workflow._sampleset_from_dataframe in Hss;
    apply Outcome_bind_inr in Hss as ([] & Hannounce & Hss);
    eexists _, df1, df2; cbn [Workflow.file_extensions
      Workflow.set_file_extensions]; rewrite ?E; by repeat split.
Qed.

Lemma directory_loader_globs_each_extension_witness :
  (∃ df1 df2,
     Workflow.set_columns Workflow.small_world ["data/a.fasta"]
       (Workflow.ColStr "assembly") = inr df1
     ∧ Workflow.add_sample_id Workflow.small_world df1
         (Workflow.ColStr "assembly") = inr df2
     ∧ Workflow.from_df Workflow.small_world df2 "sample-id"
         (Workflow.ColStr "assembly") None = inr ["data/a.fasta"])
  ∧ (∃ df1 df2,
       Workflow.set_columns Workflow.small_world
         ["data/b.fna"; "data/a.fasta"] (Workflow.ColStr "assembly")
       = inr df1
       ∧ Workflow.add_sample_id Workflow.small_world df1
           (Workflow.ColStr "assembly") = inr df2
       ∧ Workflow.from_df Workflow.small_world df2 "sample-id"
           (Workflow.ColStr "assembly") None
         = inr ["data/b.fna"; "data/a.fasta"]).
Proof.
  split.
  - destruct (directory_loader_globs_each_extension Workflow.small_world
                fasta_workflow
                (Workflow.set_file_extensions (Workflow.ColTuple ["fasta"])
                   fasta_workflow)
                ["data/a.fasta"])
      as (directory & exts & df1 & df2 & Hinput & _ & _ & Hexts & H1 & H2
          & _ & H4).
    + vm_compute. reflexivity.
    + injection Hinput as <-. injection Hexts as <-.
      exists df1, df2. split; [exact H1|]. split; [exact H2|exact H4].
  - destruct (directory_loader_globs_each_extension Workflow.small_world
                two_extension_workflow two_extension_workflow
                ["data/b.fna"; "data/a.fasta"])
      as (directory & exts & df1 & df2 & Hinput & _ & _ & Hexts & H1 & H2
          & _ & H4).
    + vm_compute. reflexivity.
    + injection Hinput as <-. injection Hexts as <-.
      exists df1, df2. split; [exact H1|]. split; [exact H2|exact H4].
Defined.
